(** * Address book assistant (m8_hw.py): model and verified properties

    A shallow embedding of the contact manager: the field validators, the
    [Record] and [AddressBook] classes, the birthday window, the command
    handlers with their [input_error] decorator, the command loop and the
    pickle persistence.  Python exceptions are values of [exn]; a call that
    may raise returns a [result]; a method that mutates its receiver returns
    the receiver's new state next to its result, so that the state left
    behind by a raising call can be observed. *)

From Stdlib Require Import ZArith Lia Ascii String.
From stdpp Require Import base option list strings countable gmap.

Local Open Scope string_scope.
Local Open Scope Z_scope.
Local Open Scope list_scope.

(** ** Exceptions and results *)

Inductive exn : Type :=
  | ValueError (msg : string)
  | KeyError (msg : string)
  | IndexError (msg : string)
  | OverflowError (msg : string)
  | FileNotFoundError
  | PermissionError
  | EOFError
  | UnpicklingError.

Inductive result (A : Type) : Type :=
  | Ok (a : A)
  | Raise (e : exn).
Arguments Ok {A} a.
Arguments Raise {A} e.

(** ** The part of [datetime.date] the program uses

    Proleptic Gregorian dates as CPython computes them: a date is a triple
    of integers built through a range check, ordinals count days from
    0001-01-01 (ordinal 1), and date arithmetic goes through ordinals. *)

Module Date.

Record date : Type := mkDate { year : Z; month : Z; day : Z }.

Definition MINYEAR : Z := 1.
Definition MAXYEAR : Z := 9999.
Definition MAXORDINAL : Z := 3652059.

Definition is_leap (y : Z) : bool :=
  (y mod 4 =? 0) && (negb (y mod 100 =? 0) || (y mod 400 =? 0)).

Definition DAYS_IN_MONTH (m : Z) : Z :=
  match m with
  | 1 => 31 | 2 => 28 | 3 => 31 | 4 => 30 | 5 => 31 | 6 => 30
  | 7 => 31 | 8 => 31 | 9 => 30 | 10 => 31 | 11 => 30 | 12 => 31
  | _ => -1
  end.

Definition DAYS_BEFORE_MONTH (m : Z) : Z :=
  match m with
  | 1 => 0 | 2 => 31 | 3 => 59 | 4 => 90 | 5 => 120 | 6 => 151
  | 7 => 181 | 8 => 212 | 9 => 243 | 10 => 273 | 11 => 304 | 12 => 334
  | _ => -1
  end.

Definition days_before_year (y : Z) : Z :=
  let y := y - 1 in y * 365 + y / 4 - y / 100 + y / 400.

Definition days_in_month (y m : Z) : Z :=
  if (m =? 2) && is_leap y then 29 else DAYS_IN_MONTH m.

Definition days_before_month (y m : Z) : Z :=
  DAYS_BEFORE_MONTH m + (if (2 <? m) && is_leap y then 1 else 0).

Definition ymd2ord (y m d : Z) : Z :=
  days_before_year y + days_before_month y m + d.

Definition DI400Y : Z := 146097.
Definition DI100Y : Z := 36524.
Definition DI4Y : Z := 1461.

(** The month and day of the [n]-th day (from 0) of a year: the estimate
    [(n + 50) >> 5] of the month is exact or one too large. *)
Definition month_day (n : Z) (leapyear : bool) : Z * Z :=
  let m := Z.shiftr (n + 50) 5 in
  let preceding :=
    DAYS_BEFORE_MONTH m + (if (2 <? m) && leapyear then 1 else 0) in
  if n <? preceding then
    let m := m - 1 in
    let preceding :=
      preceding - (if (m =? 2) && leapyear then 29 else DAYS_IN_MONTH m) in
    (m, n - preceding + 1)
  else (m, n - preceding + 1).

(** What [month_day] owes its caller, as a test: a month, a day of that
    month, and together the [r]-th day of the year. *)
Definition month_day_ok (r : Z) (lp : bool) : bool :=
  let '(m, d) := month_day r lp in
  (1 <=? m) && (m <=? 12) && (1 <=? d) &&
  (d <=? (if (m =? 2) && lp then 29 else DAYS_IN_MONTH m)) &&
  (DAYS_BEFORE_MONTH m + (if (2 <? m) && lp then 1 else 0) + d =? r + 1).

(** [_ord2ymd]: the inverse of [ymd2ord], by 400-, 100-, 4- and 1-year
    cycles; the last day of a 4- or 400-year cycle is treated apart. *)
Definition ord2ymd (n : Z) : date :=
  let n := n - 1 in
  let n400 := n / DI400Y in
  let n := n mod DI400Y in
  let y := n400 * 400 + 1 in
  let n100 := n / DI100Y in
  let n := n mod DI100Y in
  let n4 := n / DI4Y in
  let n := n mod DI4Y in
  let n1 := n / 365 in
  let n := n mod 365 in
  let y := y + n100 * 100 + n4 * 4 + n1 in
  if (n1 =? 4) || (n100 =? 4) then mkDate (y - 1) 12 31
  else
    let leapyear := (n1 =? 3) && (negb (n4 =? 24) || (n100 =? 3)) in
    let '(m, d) := month_day n leapyear in
    mkDate y m d.

Definition day_out_of_range : string := "day is out of range for month".

(** The constructor [date(year, month, day)] with its range checks.  The
    program reaches the first two errors only through [strptime], where
    their text is replaced. *)
Definition new (y m d : Z) : result date :=
  if negb ((MINYEAR <=? y) && (y <=? MAXYEAR)) then
    Raise (ValueError "year is out of range")
  else if negb ((1 <=? m) && (m <=? 12)) then
    Raise (ValueError "month must be in 1..12")
  else if negb ((1 <=? d) && (d <=? days_in_month y m)) then
    Raise (ValueError day_out_of_range)
  else Ok (mkDate y m d).

(** The dates the constructor accepts: every [date] object is one. *)
Definition valid (d : date) : bool :=
  (MINYEAR <=? year d) && (year d <=? MAXYEAR) &&
  (1 <=? month d) && (month d <=? 12) &&
  (1 <=? day d) && (day d <=? days_in_month (year d) (month d)).

(** [d.replace(year=y)] *)
Definition replace_year (d : date) (y : Z) : result date :=
  new y (month d) (day d).

Definition toordinal (d : date) : Z := ymd2ord (year d) (month d) (day d).

(** [(a - b).days] *)
Definition sub_days (a b : date) : Z := toordinal a - toordinal b.

(** [d.weekday()]: Monday is 0, Sunday is 6. *)
Definition weekday (d : date) : Z := (toordinal d + 6) mod 7.

(** [d + timedelta(days=k)] *)
Definition add_days (d : date) (k : Z) : result date :=
  let o := toordinal d + k in
  if (0 <? o) && (o <=? MAXORDINAL) then Ok (ord2ymd o)
  else Raise (OverflowError "date value out of range").

(** Whether [d] is a 29th of February. *)
Definition is_feb29 (d : date) : bool := (month d =? 2) && (day d =? 29).

(** The last decimal digit of [n], as a string. *)
Definition digit (n : Z) : string :=
  String (Ascii.ascii_of_N (Z.to_N (48 + n mod 10))) EmptyString.

Definition pad2 (n : Z) : string := digit (n / 10) +:+ digit n.

Definition pad4 (n : Z) : string :=
  digit (n / 1000) ++ digit (n / 100) ++ digit (n / 10) +:+ digit n.

(** [d.strftime("%d.%m.%Y")], the year written with four digits. *)
Definition strftime (d : date) : string :=
  pad2 (day d) +:+ "." +:+ pad2 (month d) +:+ "." +:+ pad4 (year d).

End Date.

(** ** Calls that mutate their receiver

    A method is a function from the receiver's state to its new state and
    a result; the state is returned on the raising path too. *)

Definition SE (S A : Type) : Type := S -> S * result A.

Definition se_ret {S A} (a : A) : SE S A := fun s => (s, Ok a).
Definition se_raise {S A} (e : exn) : SE S A := fun s => (s, Raise e).
Definition se_bind {S A B} (m : SE S A) (k : A -> SE S B) : SE S B :=
  fun s =>
    match m s with
    | (s', Ok a) => k a s'
    | (s', Raise e) => (s', Raise e)
    end.

Notation "'let*' x ':=' m 'in' k" := (se_bind m (fun x => k))
  (at level 10, x name, k at level 200).
Notation "m1 ';;' m2" := (se_bind m1 (fun _ => m2))
  (at level 100, m2 at level 200, right associativity).

(** ** Library functions taken as parameters

    The Unicode tables behind [str.isalpha], [str.isdigit], [str.split] and
    [str.lower], and the pattern matcher of [datetime.strptime] for the
    format [%d.%m.%Y], which yields the day, month and year fields of a
    string that matches and nothing otherwise. *)

Class Builtins : Type := {
  char_isalpha : ascii -> bool;
  char_isdigit : ascii -> bool;
  char_isspace : ascii -> bool;
  char_lower : ascii -> ascii;
  strptime_fields : string -> option (Z * Z * Z);
}.

Module Str.
Section Str.
Context `{Builtins}.

Fixpoint all (p : ascii -> bool) (s : string) : bool :=
  match s with
  | EmptyString => true
  | String c s' => p c && all p s'
  end.

(** [s.isalpha()]: at least one character, and all of them alphabetic. *)
Definition isalpha (s : string) : bool :=
  match s with
  | EmptyString => false
  | _ => all char_isalpha s
  end.

(** [s.isdigit()] *)
Definition isdigit (s : string) : bool :=
  match s with
  | EmptyString => false
  | _ => all char_isdigit s
  end.

(** [len(s)] *)
Definition len (s : string) : Z := Z.of_nat (String.length s).

(** [s.split()]: the maximal runs of characters that are not whitespace;
    [word] is the run being read. *)
Fixpoint split_from (word : string) (s : string) : list string :=
  match s with
  | EmptyString => match word with EmptyString => [] | _ => [word] end
  | String c s' =>
      if char_isspace c then
        match word with
        | EmptyString => split_from "" s'
        | _ => word :: split_from "" s'
        end
      else split_from (word +:+ String c "") s'
  end.

Definition split (s : string) : list string := split_from "" s.

Fixpoint lstrip (s : string) : string :=
  match s with
  | EmptyString => ""
  | String c s' => if char_isspace c then lstrip s' else s
  end.

Fixpoint rev_from (acc s : string) : string :=
  match s with
  | EmptyString => acc
  | String c s' => rev_from (String c acc) s'
  end.

(** [s.strip()] *)
Definition strip (s : string) : string :=
  rev_from "" (lstrip (rev_from "" (lstrip s))).

(** [s.lower()] *)
Fixpoint lower (s : string) : string :=
  match s with
  | EmptyString => ""
  | String c s' => String (char_lower c) (lower s')
  end.

(** [sep.join(l)] *)
Fixpoint join (sep : string) (l : list string) : string :=
  match l with
  | [] => ""
  | [x] => x
  | x :: l' => x +:+ sep +:+ join sep l'
  end.

End Str.
End Str.

(** ** Fields *)

Module Name.
Section Name.
Context `{Builtins}.

Record t : Type := mk { value : string }.

Definition init (value : string) : result t :=
  if negb (Str.isalpha value) then
    Raise (ValueError "Name must contain only letters")
  else Ok (mk value).

End Name.
End Name.

Module Phone.
Section Phone.
Context `{Builtins}.

Record t : Type := mk { value : string }.

Definition init (value : string) : result t :=
  if negb (Str.isdigit value) || negb (Str.len value =? 10) then
    Raise (ValueError "Phone number must contain 10 digits")
  else Ok (mk value).

Definition eqb (a b : t) : bool := String.eqb (value a) (value b).

End Phone.
End Phone.

Module Birthday.
Section Birthday.
Context `{Builtins}.

Record t : Type := mk { value : Date.date }.

(** [datetime.strptime(value, "%d.%m.%Y").date()]: the fields matched in
    the string go through the date constructor. *)
Definition strptime (value : string) : result Date.date :=
  match strptime_fields value with
  | None => Raise (ValueError "time data does not match format")
  | Some (d, m, y) => Date.new y m d
  end.

Definition init (value : string) : result t :=
  match strptime value with
  | Ok d => Ok (mk d)
  | Raise (ValueError _) =>
      Raise (ValueError "Invalid date format. Use DD.MM.YYYY")
  | Raise e => Raise e
  end.

End Birthday.
End Birthday.

(** ** Record *)

Module Record.
Section Record.
Context `{Builtins}.

Record t : Type := mk {
  name : Name.t;
  phones : list Phone.t;
  birthday : option Birthday.t;
}.

Definition init (name : string) : result t :=
  match Name.init name with
  | Ok n => Ok (mk n [] None)
  | Raise e => Raise e
  end.

Definition set_phones (l : list Phone.t) (self : t) : t :=
  mk (name self) l (birthday self).

Definition set_birthday (b : option Birthday.t) (self : t) : t :=
  mk (name self) (phones self) b.

Definition add_phone (phone : string) : SE t unit := fun self =>
  match Phone.init phone with
  | Ok p => (set_phones (phones self ++ [p]) self, Ok tt)
  | Raise e => (self, Raise e)
  end.

(** The first phone whose value is [phone], or [None]. *)
Definition find_phone (phone : string) (self : t) : option Phone.t :=
  find (fun ph => String.eqb (Phone.value ph) phone) (phones self).

(** [l.remove(x)]: without the first element equal to [x]. *)
Fixpoint list_remove (x : Phone.t) (l : list Phone.t) : list Phone.t :=
  match l with
  | [] => []
  | y :: l' => if Phone.eqb y x then l' else y :: list_remove x l'
  end.

Definition not_found : exn := ValueError "Phone number is not found".

Definition remove_phone (phone : string) : SE t unit := fun self =>
  match find_phone phone self with
  | Some phone_remove =>
      (set_phones (list_remove phone_remove (phones self)) self, Ok tt)
  | None => (self, Raise not_found)
  end.

Definition edit_phone (old_phone_number new_phone_number : string)
  : SE t unit := fun self =>
  match find_phone old_phone_number self with
  | Some _ =>
      (remove_phone old_phone_number ;; add_phone new_phone_number) self
  | None => (self, Raise not_found)
  end.

Definition add_birthday (birthday : string) : SE t unit := fun self =>
  match Birthday.init birthday with
  | Ok b => (set_birthday (Some b) self, Ok tt)
  | Raise e => (self, Raise e)
  end.

Definition phone_values (self : t) : list string :=
  map Phone.value (phones self).

(** [str(record)] *)
Definition str (self : t) : string :=
  "Contact name: " +:+ Name.value (name self) +:+
  ", phones: " +:+ Str.join "; " (phone_values self) +:+
  ", birthday: " +:+
  match birthday self with
  | Some b => Date.strftime (Birthday.value b)
  | None => "Not available"
  end.

End Record.
End Record.

(** ** AddressBook

    [self.data] is a [dict]: keys are unique and kept in insertion order;
    assigning to a key that is present replaces the value in place. *)

Module AddressBook.
Section AddressBook.
Context `{Builtins}.

Definition t : Type := list (string * Record.t).

Definition empty : t := [].

Fixpoint dict_get (k : string) (d : t) : option Record.t :=
  match d with
  | [] => None
  | (k', v) :: d' => if String.eqb k' k then Some v else dict_get k d'
  end.

Fixpoint dict_set (k : string) (v : Record.t) (d : t) : t :=
  match d with
  | [] => [(k, v)]
  | (k', v') :: d' =>
      if String.eqb k' k then (k', v) :: d' else (k', v') :: dict_set k v d'
  end.

Fixpoint dict_del (k : string) (d : t) : t :=
  match d with
  | [] => []
  | (k', v') :: d' =>
      if String.eqb k' k then d' else (k', v') :: dict_del k d'
  end.

Definition values (d : t) : list Record.t := map snd d.

(** The records stored under the key [k]. *)
Definition under (k : string) (d : t) : list Record.t :=
  map snd (List.filter (fun kv => String.eqb (fst kv) k) d).

Definition add_record (record : Record.t) (self : t) : t :=
  dict_set (Name.value (Record.name record)) record self.

Definition find_record (name : string) (self : t) : option Record.t :=
  dict_get name self.

Definition delete_record (name : string) : SE t unit := fun self =>
  match dict_get name self with
  | Some _ => (dict_del name self, Ok tt)
  | None => (self, Raise (KeyError "Contact not found"))
  end.

(** One element of the list [get_upcoming_birthdays] returns. *)
Record entry : Type := mk_entry { entry_name : string; entry_birthday : string }.

(** The date reported for an occurrence inside the window. *)
Definition report_date (bday_this_year : Date.date) : result Date.date :=
  if 5 <=? Date.weekday bday_this_year then
    Date.add_days bday_this_year (7 - Date.weekday bday_this_year)
  else Ok bday_this_year.

(** The body of the loop of [get_upcoming_birthdays] for one record: the
    entries it appends, none or one. *)
Definition loop_body (today : Date.date) (record : Record.t)
  : result (list entry) :=
  match Record.birthday record with
  | None => Ok []
  | Some b =>
      match Date.replace_year (Birthday.value b) (Date.year today) with
      | Raise e => Raise e
      | Ok bday_this_year =>
          let days := Date.sub_days bday_this_year today in
          if (0 <=? days) && (days <=? 7) then
            match report_date bday_this_year with
            | Raise e => Raise e
            | Ok reported =>
                Ok [mk_entry (Name.value (Record.name record))
                             (Date.strftime reported)]
            end
          else Ok []
      end
  end.

(** The loop over the records still to visit, [upcoming_birthdays] being
    the list built so far. *)
Fixpoint upcoming_loop (today : Date.date) (records : list Record.t)
    (upcoming_birthdays : list entry) : result (list entry) :=
  match records with
  | [] => Ok upcoming_birthdays
  | record :: rest =>
      match loop_body today record with
      | Raise e => Raise e
      | Ok new => upcoming_loop today rest (upcoming_birthdays ++ new)
      end
  end.

(** [today] is [datetime.now().date()]. *)
Definition get_upcoming_birthdays (today : Date.date) (self : t)
  : result (list entry) :=
  upcoming_loop today (values self) [].

(** [str(book)] *)
Definition str (self : t) : string :=
  Str.join (String "010"%char "") (map Record.str (values self)).

(** The books the program builds: one record per key, each stored under
    its own name, every birthday a date the constructor accepts. *)
Definition birthday_ok (record : Record.t) : bool :=
  match Record.birthday record with
  | Some b => Date.valid (Birthday.value b)
  | None => true
  end.

Fixpoint distinct (keys : list string) : bool :=
  match keys with
  | [] => true
  | k :: keys' => negb (existsb (String.eqb k) keys') && distinct keys'
  end.

Definition entry_ok (kv : string * Record.t) : bool :=
  String.eqb (fst kv) (Name.value (Record.name (snd kv))) &&
  birthday_ok (snd kv).

Definition well_formed (self : t) : bool :=
  distinct (map fst self) && forallb entry_ok self.

(** Whether the birthday of [record], if it has one, exists in the year
    of [today]. *)
Definition occurs_this_year (today : Date.date) (record : Record.t) : bool :=
  match Record.birthday record with
  | Some b =>
      negb (Date.is_feb29 (Birthday.value b)) ||
      Date.is_leap (Date.year today)
  | None => true
  end.

(** A call of a method on the record stored under [key]: the book holds
    the object itself, so the record's new state is the book's. *)
Definition on_record {A} (key : string) (record : Record.t)
    (m : SE Record.t A) : SE t A := fun self =>
  let '(record', r) := m record in (dict_set key record' self, r).

End AddressBook.
End AddressBook.

(** ** Command handlers *)

Section Commands.
Context `{Builtins}.

(** The decorator: [ValueError], [KeyError] and [IndexError] raised by the
    handler become its returned line; anything else passes through. *)
Definition input_error {Args : Type}
    (func : Args -> SE AddressBook.t string)
  : Args -> SE AddressBook.t string := fun args book =>
  match func args book with
  | (book', Raise (ValueError ve)) => (book', Ok ve)
  | (book', Raise (KeyError _)) => (book', Ok "Contact is not found")
  | (book', Raise (IndexError _)) =>
      (book', Ok "Enter user name and phone/birthday")
  | other => other
  end.

(** The exceptions the decorator catches. *)
Definition catchable (e : exn) : bool :=
  match e with
  | ValueError _ | KeyError _ | IndexError _ => true
  | _ => false
  end.

(** The error of [a, b, *_ = args] on a list that is too short. *)
Definition unpack_error (expected : Z) (args : list string) : exn :=
  ValueError ("not enough values to unpack (expected at least " +:+
              Date.digit expected +:+ ", got " +:+
              Date.digit (Z.of_nat (length args)) +:+ ")").

Definition index_error : exn := IndexError "list index out of range".

Definition nonempty (s : string) : bool :=
  match s with EmptyString => false | _ => true end.

(** A word: not empty, and without whitespace. *)
Definition is_word (w : string) : Prop :=
  nonempty w = true /\ Str.all (fun c => negb (char_isspace c)) w = true.

(** The first half of [add_contact]: the record found under [name], or a
    new one added to the book (under its name, which is [name]), with the
    message to return. *)
Definition find_or_create (name : string)
  : SE AddressBook.t (Record.t * string) := fun book =>
  match AddressBook.find_record name book with
  | Some record => (book, Ok (record, "Contact updated."))
  | None =>
      match Record.init name with
      | Ok record =>
          (AddressBook.add_record record book, Ok (record, "Contact added."))
      | Raise e => (book, Raise e)
      end
  end.

Definition add_contact_func (args : list string)
  : SE AddressBook.t string :=
  match args with
  | name :: phone :: _ =>
      let* rm := find_or_create name in
      let record := fst rm in
      let message := snd rm in
      (if nonempty phone then
         AddressBook.on_record name record (Record.add_phone phone)
       else se_ret tt) ;;
      se_ret message
  | _ => se_raise (unpack_error 2 args)
  end.

Definition add_contact := input_error add_contact_func.

Definition change_contact_func (args : list string)
  : SE AddressBook.t string := fun book =>
  match args with
  | name :: old_phone :: new_phone :: _ =>
      match AddressBook.find_record name book with
      | Some record =>
          (AddressBook.on_record name record
             (Record.edit_phone old_phone new_phone) ;;
           se_ret "Contact updated.") book
      | None => (book, Ok "Contact is not found")
      end
  | _ => (book, Raise (unpack_error 3 args))
  end.

Definition change_contact := input_error change_contact_func.

Definition phone_contact_func (args : list string)
  : SE AddressBook.t string := fun book =>
  match args with
  | [] => (book, Raise index_error)
  | name :: _ =>
      match AddressBook.find_record name book with
      | Some record =>
          (book, Ok ("Contact " +:+ name +:+ ": " +:+
                     Str.join "; " (Record.phone_values record)))
      | None => (book, Ok "Contact is not found")
      end
  end.

Definition phone_contact := input_error phone_contact_func.

Definition show_all_contacts_func (_ : unit) : SE AddressBook.t string :=
  fun book =>
  match book with
  | [] => (book, Ok "Phonebook is empty")
  | _ => (book, Ok (AddressBook.str book))
  end.

Definition show_all_contacts := input_error show_all_contacts_func.

Definition add_birthday_func (args : list string)
  : SE AddressBook.t string := fun book =>
  match args with
  | name :: birthday :: _ =>
      match AddressBook.find_record name book with
      | Some record =>
          (AddressBook.on_record name record (Record.add_birthday birthday) ;;
           se_ret "Birthday added.") book
      | None => (book, Ok "Contact is not found")
      end
  | _ => (book, Raise (unpack_error 2 args))
  end.

Definition add_birthday := input_error add_birthday_func.

Definition show_birthday_func (args : list string)
  : SE AddressBook.t string := fun book =>
  match args with
  | [] => (book, Raise index_error)
  | name :: _ =>
      match AddressBook.find_record name book with
      | Some record =>
          (book, Ok ("Contact " +:+ name +:+ ": Birthday is " +:+
                     match Record.birthday record with
                     | Some b => Date.strftime (Birthday.value b)
                     | None => "not set"
                     end))
      | None => (book, Ok "Contact is not found")
      end
  end.

Definition show_birthday := input_error show_birthday_func.

Definition entry_line (record : AddressBook.entry) : string :=
  AddressBook.entry_name record +:+ ": " +:+
  AddressBook.entry_birthday record.

Definition birthdays_func (today : Date.date) (args : list string)
  : SE AddressBook.t string := fun book =>
  match AddressBook.get_upcoming_birthdays today book with
  | Raise e => (book, Raise e)
  | Ok [] => (book, Ok "No upcoming birthdays in the next 7 days.")
  | Ok upcoming =>
      (book, Ok (Str.join (String "010"%char "") (map entry_line upcoming)))
  end.

Definition birthdays (today : Date.date) := input_error (birthdays_func today).

Definition parse_input (user_input : string) : result (string * list string) :=
  match Str.split user_input with
  | [] => Raise (unpack_error 1 [])
  | cmd :: args => Ok (Str.lower (Str.strip cmd), args)
  end.

End Commands.

(** ** Persistence

    A file is absent, or present and not accessible, or present with its
    bytes.  [pickle] is a parameter: what it writes for a book and what it
    reads back from bytes. *)

Inductive file : Type :=
  | Denied
  | Content (bytes : list Byte.byte).

Abbreviation filesystem := (gmap string file).

Class Pickle : Type := {
  pickle_dumps : AddressBook.t -> list Byte.byte;
  pickle_loads : list Byte.byte -> result AddressBook.t;
}.

(** [pickle] restores what it has written. *)
Definition pickle_faithful `{Pickle} : Prop :=
  forall book, pickle_loads (pickle_dumps book) = Ok book.

Section Persistence.
Context `{Pickle}.

(** [open(filename, "rb")] and reading the file *)
Definition read_file (filename : string) (fs : filesystem)
  : result (list Byte.byte) :=
  match fs !! filename with
  | None => Raise FileNotFoundError
  | Some Denied => Raise PermissionError
  | Some (Content bytes) => Ok bytes
  end.

(** [open(filename, "wb")] and writing the file *)
Definition write_file (filename : string) (bytes : list Byte.byte)
    (fs : filesystem) : result filesystem :=
  match fs !! filename with
  | Some Denied => Raise PermissionError
  | _ => Ok (<[filename := Content bytes]> fs)
  end.

Definition default_filename : string := "addressbook.pkl".

Definition save_data (book : AddressBook.t) (filename : string)
    (fs : filesystem) : result filesystem :=
  write_file filename (pickle_dumps book) fs.

Definition load_data (filename : string) (fs : filesystem)
  : result AddressBook.t :=
  match
    match read_file filename fs with
    | Ok bytes => pickle_loads bytes
    | Raise e => Raise e
    end
  with
  | Raise FileNotFoundError => Ok AddressBook.empty
  | r => r
  end.

End Persistence.

(** ** The command loop *)

(** Where the loop stands after a line: still running with its book, ended
    by [close]/[exit] with the files it leaves, or left by an exception. *)
Inductive status : Type :=
  | Running (book : AddressBook.t)
  | Stopped (fs : filesystem)
  | Crashed (e : exn).

Section Main.
Context `{Builtins} `{Pickle}.

(** [print(handler(args, book))] *)
Definition print_result (r : AddressBook.t * result string)
  : list string * status :=
  match r with
  | (book, Ok line) => ([line], Running book)
  | (_, Raise e) => ([], Crashed e)
  end.

(** One turn of the [while True] loop on the line [user_input]; the lines
    printed and the status after it. *)
Definition main_step (today : Date.date) (fs : filesystem)
    (user_input : string) (book : AddressBook.t) : list string * status :=
  match parse_input user_input with
  | Raise e => ([], Crashed e)
  | Ok (command, args) =>
      if String.eqb command "close" || String.eqb command "exit" then
        match save_data book default_filename fs with
        | Ok fs' => (["Good bye!"], Stopped fs')
        | Raise e => ([], Crashed e)
        end
      else if String.eqb command "hello" then
        (["How can I help you?"], Running book)
      else if String.eqb command "add" then
        print_result (add_contact args book)
      else if String.eqb command "change" then
        print_result (change_contact args book)
      else if String.eqb command "phone" then
        print_result (phone_contact args book)
      else if String.eqb command "all" then
        print_result (show_all_contacts tt book)
      else if String.eqb command "add-birthday" then
        print_result (add_birthday args book)
      else if String.eqb command "show-birthday" then
        print_result (show_birthday args book)
      else if String.eqb command "birthdays" then
        print_result (birthdays today args book)
      else (["Invalid command"], Running book)
  end.

(** The loop on the lines typed; [input()] raises [EOFError] when there is
    no line left. *)
Fixpoint main_loop (today : Date.date) (fs : filesystem)
    (lines : list string) (book : AddressBook.t) : list string * status :=
  match lines with
  | [] => ([], Crashed EOFError)
  | user_input :: rest =>
      match main_step today fs user_input book with
      | (out, Running book') =>
          let '(out', st) := main_loop today fs rest book' in
          (out ++ out', st)
      | r => r
      end
  end.

Definition main (today : Date.date) (fs : filesystem) (lines : list string)
  : list string * status :=
  match load_data default_filename fs with
  | Raise e => ([], Crashed e)
  | Ok book =>
      let '(out, st) := main_loop today fs lines book in
      ("Welcome to the assistant bot!" :: out, st)
  end.

End Main.

(** The books in which every birthday is a date the constructor accepts. *)
Definition book_ok (book : AddressBook.t) : Prop :=
  Forall (fun r => AddressBook.birthday_ok r = true) (AddressBook.values book).

(** ** Instances of the parameters

    The character tables on ASCII, a matcher for [DD.MM.YYYY] written with
    ASCII digits, and a serialisation that writes a marker byte followed by
    the bits of a number encoding the book.  They run the model on concrete
    input. *)

Module Sample.

Definition code (c : ascii) : Z := Z.of_N (N_of_ascii c).

Definition between (lo hi : Z) (c : ascii) : bool :=
  (lo <=? code c) && (code c <=? hi).

Definition isalpha (c : ascii) : bool := between 65 90 c || between 97 122 c.
Definition isdigit (c : ascii) : bool := between 48 57 c.
Definition isspace (c : ascii) : bool := between 9 13 c || between 28 32 c.
Definition lower (c : ascii) : ascii :=
  if between 65 90 c then ascii_of_N (Z.to_N (code c + 32)) else c.

(** The digits at the head of [s], at most [fuel] of them, as a number,
    with how many were read and the rest of [s]. *)
Fixpoint number (fuel : nat) (acc : Z) (read : nat) (s : string)
  : Z * nat * string :=
  match fuel, s with
  | S fuel', String c s' =>
      if isdigit c then number fuel' (10 * acc + (code c - 48)) (S read) s'
      else (acc, read, s)
  | _, _ => (acc, read, s)
  end.

Definition dot (s : string) : option string :=
  match s with
  | String "."%char s' => Some s'
  | _ => None
  end.

Definition fields (s : string) : option (Z * Z * Z) :=
  let '(d, nd, s) := number 2 0 0 s in
  if (nd =? 0)%nat then None else
  match dot s with
  | None => None
  | Some s =>
      let '(m, nm, s) := number 2 0 0 s in
      if (nm =? 0)%nat then None else
      match dot s with
      | None => None
      | Some s =>
          let '(y, ny, s) := number 4 0 0 s in
          if (ny =? 4)%nat && negb (nonempty s) then Some (d, m, y)
          else None
      end
  end.

#[global] Instance builtins : Builtins := {|
  char_isalpha := isalpha;
  char_isdigit := isdigit;
  char_isspace := isspace;
  char_lower := lower;
  strptime_fields := fields;
|}.

#[global] Instance date_eq_dec : EqDecision Date.date.
Proof. solve_decision. Defined.
#[global] Instance name_eq_dec : EqDecision Name.t.
Proof. solve_decision. Defined.
#[global] Instance phone_eq_dec : EqDecision Phone.t.
Proof. solve_decision. Defined.
#[global] Instance birthday_eq_dec : EqDecision Birthday.t.
Proof. solve_decision. Defined.
#[global] Instance record_eq_dec : EqDecision Record.t.
Proof. solve_decision. Defined.

#[global] Instance date_countable : Countable Date.date :=
  inj_countable'
    (fun d => (Date.year d, Date.month d, Date.day d))
    (fun t => Date.mkDate t.1.1 t.1.2 t.2)
    (fun d => match d with Date.mkDate _ _ _ => eq_refl end).
#[global] Instance name_countable : Countable Name.t :=
  inj_countable' Name.value Name.mk
    (fun n => match n with Name.mk _ => eq_refl end).
#[global] Instance phone_countable : Countable Phone.t :=
  inj_countable' Phone.value Phone.mk
    (fun n => match n with Phone.mk _ => eq_refl end).
#[global] Instance birthday_countable : Countable Birthday.t :=
  inj_countable' Birthday.value Birthday.mk
    (fun n => match n with Birthday.mk _ => eq_refl end).
#[global] Instance record_countable : Countable Record.t :=
  inj_countable'
    (fun r => (Record.name r, Record.phones r, Record.birthday r))
    (fun t => Record.mk t.1.1 t.1.2 t.2)
    (fun r => match r with Record.mk _ _ _ => eq_refl end).

Fixpoint bits (p : positive) : list Byte.byte :=
  match p with
  | xH => []
  | xO p' => Byte.x00 :: bits p'
  | xI p' => Byte.x01 :: bits p'
  end.

Fixpoint of_bits (bs : list Byte.byte) : option positive :=
  match bs with
  | [] => Some xH
  | Byte.x00 :: bs' => xO <$> of_bits bs'
  | Byte.x01 :: bs' => xI <$> of_bits bs'
  | _ => None
  end.

Definition dumps (book : AddressBook.t) : list Byte.byte :=
  Byte.x80 :: bits (encode book).

Definition loads (bs : list Byte.byte) : result AddressBook.t :=
  match bs with
  | [] => Raise EOFError
  | Byte.x80 :: bs' =>
      match of_bits bs' ≫= decode with
      | Some book => Ok book
      | None => Raise UnpicklingError
      end
  | _ => Raise UnpicklingError
  end.

#[global] Instance pickle : Pickle := {|
  pickle_dumps := dumps;
  pickle_loads := loads;
|}.

(** A record as the program would have built it. *)
Definition record (name : string) (phones : list string)
    (birthday : option Date.date) : Record.t :=
  Record.mk (Name.mk name) (map Phone.mk phones) (Birthday.mk <$> birthday).

(** A book with one contact born on a 6th of January, looked at on Monday
    2024-01-01: the occurrence is the Saturday of that week. *)
Definition new_year : Date.date := Date.mkDate 2024 1 1.
Definition ann : Record.t :=
  record "Ann" ["1234567890"] (Some (Date.mkDate 1990 1 6)).
Definition book_ann : AddressBook.t := [("Ann", ann)].

(** A book with a contact born on a 2nd of January and one born on a 31st
    of December, looked at on 2024-12-30. *)
Definition year_end : Date.date := Date.mkDate 2024 12 30.
Definition bob : Record.t := record "Bob" [] (Some (Date.mkDate 1990 1 2)).
Definition book_bob : AddressBook.t :=
  [("Bob", bob); ("Zed", record "Zed" [] (Some (Date.mkDate 1971 12 31)))].

(** A book with a contact born on 2000-02-29 after one born in March,
    looked at in the common year 2023. *)
Definition common_year : Date.date := Date.mkDate 2023 2 25.
Definition eve : Record.t := record "Eve" [] (Some (Date.mkDate 2000 2 29)).
Definition book_eve : AddressBook.t :=
  [("Kim", record "Kim" [] (Some (Date.mkDate 1985 3 1))); ("Eve", eve)].

End Sample.

(* ================================================================== *)
(** * Properties *)

Section DateFacts.
Import Date.

Lemma is_leap_spec y :
  is_leap y = true <-> (y mod 4 = 0 /\ (y mod 100 <> 0 \/ y mod 400 = 0)).
Proof. unfold is_leap. lia. Qed.

Lemma month_cases m :
  1 <= m <= 12 ->
  m = 1 \/ m = 2 \/ m = 3 \/ m = 4 \/ m = 5 \/ m = 6 \/
  m = 7 \/ m = 8 \/ m = 9 \/ m = 10 \/ m = 11 \/ m = 12.
Proof. lia. Qed.

Ltac each_month m H :=
  destruct (month_cases m H) as
    [-> | [-> | [-> | [-> | [-> | [-> | [-> | [-> | [-> | [-> | [-> | ->]]]]]]]]]]].

Lemma valid_spec d :
  valid d = true <->
  1 <= year d <= 9999 /\ 1 <= month d <= 12 /\
  1 <= day d <= days_in_month (year d) (month d).
Proof. unfold valid, MINYEAR, MAXYEAR. lia. Qed.

(** Ordinals of dates lie between 1 and [MAXORDINAL]. *)
Lemma toordinal_range d :
  valid d = true -> 1 <= toordinal d <= MAXORDINAL.
Proof.
  rewrite valid_spec. destruct d as [y m dd]; cbn [year month day].
  intros (Hy & Hm & Hd).
  unfold toordinal, ymd2ord, days_before_year, days_before_month,
    days_in_month, MAXORDINAL in *; cbn [year month day].
  each_month m Hm; cbn in Hd |- *;
    destruct (is_leap y) eqn:Hl; cbn in Hd |- *;
    try (apply is_leap_spec in Hl);
    try (apply not_true_iff_false in Hl; rewrite is_leap_spec in Hl);
    Z.to_euclidean_division_equations; lia.
Qed.

Lemma month_day_ok_year (lp : bool) :
  forallb (fun k => month_day_ok (Z.of_nat k) lp)
    (seq 0 (if lp then 366 else 365)%nat) = true.
Proof. destruct lp; vm_compute; reflexivity. Qed.

Lemma month_day_spec r (lp : bool) :
  0 <= r < 365 + (if lp then 1 else 0) ->
  month_day_ok r lp = true.
Proof.
  intros Hr. pose proof (month_day_ok_year lp) as H.
  rewrite forallb_forall in H.
  specialize (H (Z.to_nat r)). rewrite Z2Nat.id in H by lia.
  apply H, in_seq. destruct lp; lia.
Qed.

(** [ord2ymd] inverts [ymd2ord] on the whole range of ordinals and lands
    on a date the constructor accepts. *)
Lemma ord2ymd_spec n :
  1 <= n <= MAXORDINAL ->
  valid (ord2ymd n) = true /\ toordinal (ord2ymd n) = n.
Proof.
  intros Hn. unfold ord2ymd, MAXORDINAL, DI400Y, DI100Y, DI4Y in *.
  set (n0 := n - 1).
  set (q400 := n0 / 146097). set (r1 := n0 mod 146097).
  set (q100 := r1 / 36524). set (r2 := r1 mod 36524).
  set (q4 := r2 / 1461). set (r3 := r2 mod 1461).
  set (q1 := r3 / 365). set (r4 := r3 mod 365).
  assert (E1 : n0 = 146097 * q400 + r1 /\ 0 <= r1 < 146097)
    by (subst q400 r1; Z.to_euclidean_division_equations; lia).
  assert (E2 : r1 = 36524 * q100 + r2 /\ 0 <= r2 < 36524)
    by (subst q100 r2; Z.to_euclidean_division_equations; lia).
  assert (E3 : r2 = 1461 * q4 + r3 /\ 0 <= r3 < 1461)
    by (subst q4 r3; Z.to_euclidean_division_equations; lia).
  assert (E4 : r3 = 365 * q1 + r4 /\ 0 <= r4 < 365)
    by (subst q1 r4; Z.to_euclidean_division_equations; lia).
  assert (E0 : n0 = n - 1) by reflexivity.
  clearbody n0 q400 r1 q100 r2 q4 r3 q1 r4.
  destruct ((q1 =? 4) || (q100 =? 4)) eqn:Hsp.
  - set (y := q400 * 400 + 1 + q100 * 100 + q4 * 4 + q1 - 1).
    assert (Hq : q1 = 4 /\ q4 <= 23 /\ q100 <= 3 \/
                 q100 = 4 /\ q4 = 0 /\ q1 = 0) by lia.
    assert (Hlp : is_leap y = true).
    { subst y. apply is_leap_spec.
      Z.to_euclidean_division_equations; lia. }
    rewrite valid_spec. unfold toordinal, ymd2ord, days_before_month,
      days_in_month; cbn [year month day]. rewrite Hlp.
    assert (Hy : days_before_year y = n0 - 365).
    { subst y. unfold days_before_year.
      Z.to_euclidean_division_equations; lia. }
    rewrite Hy. cbn. subst y. lia.
  - set (lp := (q1 =? 3) && (negb (q4 =? 24) || (q100 =? 3))).
    set (y := q400 * 400 + 1 + q100 * 100 + q4 * 4 + q1).
    assert (Hlp : is_leap y = lp).
    { subst lp y. unfold is_leap. apply eq_true_iff_eq.
      Z.to_euclidean_division_equations; lia. }
    assert (Hr4 : 0 <= r4 < 365 + (if lp then 1 else 0))
      by (destruct lp; lia).
    pose proof (month_day_spec r4 lp Hr4) as Hmd.
    unfold month_day_ok in Hmd.
    destruct (month_day r4 lp) as [m d].
    rewrite valid_spec. unfold toordinal, ymd2ord, days_before_month,
      days_in_month; cbn [year month day]. rewrite Hlp.
    assert (Hy : days_before_year y = n0 - r4).
    { subst y. unfold days_before_year.
      Z.to_euclidean_division_equations; lia. }
    rewrite Hy.
    assert (1 <= y <= 9999) by (subst y; lia).
    lia.
Qed.

Lemma valid_year d : valid d = true -> 1 <= year d <= 9999.
Proof. rewrite valid_spec. tauto. Qed.

(** Replacing the year fails exactly for a 29th of February moved into a
    common year, and gives a date otherwise. *)
Lemma replace_year_spec b y :
  valid b = true -> 1 <= y <= 9999 ->
  if is_feb29 b && negb (is_leap y)
  then replace_year b y = Raise (ValueError day_out_of_range)
  else replace_year b y = Ok (mkDate y (month b) (day b)) /\
       valid (mkDate y (month b) (day b)) = true.
Proof.
  rewrite valid_spec. destruct b as [yb m d]; cbn [year month day].
  intros (Hyb & Hm & Hd) Hy.
  unfold replace_year, new, valid, is_feb29, MINYEAR, MAXYEAR;
    cbn [year month day].
  replace ((1 <=? y) && (y <=? 9999)) with true by lia.
  replace ((1 <=? m) && (m <=? 12)) with true by lia.
  replace (1 <=? d) with true by lia.
  cbn [negb andb].
  unfold days_in_month in *.
  each_month m Hm; cbn in Hd |- *;
    destruct (is_leap yb), (is_leap y); cbn in Hd |- *;
    try (destruct (d =? 29) eqn:E; cbn);
    repeat match goal with
           | |- context [?a <=? ?b] =>
               first [ replace (a <=? b) with true by lia
                     | replace (a <=? b) with false by lia ]
           end; cbn; try split; try reflexivity; lia.
Qed.

Lemma add_days_spec d k :
  valid d = true -> 1 <= toordinal d + k <= MAXORDINAL ->
  exists d', add_days d k = Ok d' /\ valid d' = true /\
             toordinal d' = toordinal d + k.
Proof.
  intros _ Hk. unfold add_days.
  replace ((0 <? toordinal d + k) && (toordinal d + k <=? MAXORDINAL))
    with true by lia.
  exists (ord2ymd (toordinal d + k)).
  destruct (ord2ymd_spec _ Hk) as [Hv Ho]. auto.
Qed.

End DateFacts.

Section BirthdayWindow.
Import AddressBook.

(** The reported date exists for every occurrence: the occurrence itself
    on a weekday, the Monday after it on a Saturday or Sunday. *)
Lemma report_date_spec occ :
  Date.valid occ = true ->
  exists reported,
    report_date occ = Ok reported /\ Date.valid reported = true /\
    (Date.weekday occ < 5 -> reported = occ) /\
    (5 <= Date.weekday occ ->
     Date.weekday reported = 0 /\
     Date.toordinal reported = Date.toordinal occ + (7 - Date.weekday occ)).
Proof.
  intros Hv. pose proof (toordinal_range occ Hv) as Ho.
  unfold report_date. destruct (5 <=? Date.weekday occ) eqn:Hw.
  - assert (Hk : 1 <= Date.toordinal occ + (7 - Date.weekday occ)
                 <= Date.MAXORDINAL).
    { unfold Date.weekday, Date.MAXORDINAL in *.
      Z.to_euclidean_division_equations; lia. }
    destruct (add_days_spec occ _ Hv Hk) as (r & Hr & Hvr & Hor).
    exists r. repeat split; auto; try lia.
    unfold Date.weekday in *. rewrite Hor.
    Z.to_euclidean_division_equations; lia.
  - exists occ. repeat split; auto; lia.
Qed.

Lemma occurs_this_year_spec today record b :
  Record.birthday record = Some b ->
  occurs_this_year today record =
  negb (Date.is_feb29 (Birthday.value b) &&
        negb (Date.is_leap (Date.year today))).
Proof.
  intros Hb. unfold occurs_this_year. rewrite Hb.
  destruct (Date.is_feb29 _), (Date.is_leap _); reflexivity.
Qed.

(** The body of the loop on a record with a birthday that exists this
    year. *)
Lemma loop_body_spec today record b :
  Date.valid today = true -> birthday_ok record = true ->
  occurs_this_year today record = true ->
  Record.birthday record = Some b ->
  exists occ reported,
    Date.replace_year (Birthday.value b) (Date.year today) = Ok occ /\
    Date.valid occ = true /\
    report_date occ = Ok reported /\
    loop_body today record =
    Ok (if (0 <=? Date.sub_days occ today) && (Date.sub_days occ today <=? 7)
        then [mk_entry (Name.value (Record.name record))
                       (Date.strftime reported)]
        else []).
Proof.
  intros Ht Hok Hocc Hb.
  rewrite (occurs_this_year_spec _ _ _ Hb) in Hocc.
  unfold birthday_ok in Hok. rewrite Hb in Hok.
  pose proof (replace_year_spec _ _ Hok (valid_year _ Ht)) as Hr.
  apply negb_true_iff in Hocc. rewrite Hocc in Hr. destruct Hr as [Hr Hv].
  clear Hocc. destruct (report_date_spec _ Hv) as (rep & Hrep & _).
  eexists _, rep. repeat split; eauto.
  unfold loop_body. rewrite Hb, Hr, Hrep.
  destruct (_ && _); reflexivity.
Qed.

(** The body of the loop on a 29th of February in a common year. *)
Lemma loop_body_feb29 today record :
  Date.valid today = true -> birthday_ok record = true ->
  occurs_this_year today record = false ->
  loop_body today record = Raise (ValueError Date.day_out_of_range).
Proof.
  intros Ht Hok Hocc. unfold loop_body, birthday_ok, occurs_this_year in *.
  destruct (Record.birthday record) as [b|]; [|discriminate].
  pose proof (replace_year_spec _ _ Hok (valid_year _ Ht)) as Hr.
  apply orb_false_iff in Hocc as [Hf Hl]. apply negb_false_iff in Hf.
  rewrite Hf, Hl in Hr. cbn in Hr. rewrite Hr. reflexivity.
Qed.

(** On a well-formed record the body raises nothing else. *)
Lemma loop_body_total today record :
  Date.valid today = true -> birthday_ok record = true ->
  (exists new, loop_body today record = Ok new) \/
  loop_body today record = Raise (ValueError Date.day_out_of_range).
Proof.
  intros Ht Hok. destruct (occurs_this_year today record) eqn:Hocc.
  - left. destruct (Record.birthday record) as [b|] eqn:Hb.
    + destruct (loop_body_spec _ _ _ Ht Hok Hocc Hb) as (? & ? & _ & _ & _ & ->).
      eauto.
    + unfold loop_body. rewrite Hb. eauto.
  - right. apply loop_body_feb29; assumption.
Qed.

(** The loop, when every birthday exists this year: it returns, and its
    entries are those of the bodies. *)
Lemma upcoming_loop_spec today records :
  Date.valid today = true ->
  Forall (fun r => birthday_ok r = true) records ->
  Forall (fun r => occurs_this_year today r = true) records ->
  exists new,
    (forall acc, upcoming_loop today records acc = Ok (acc ++ new)) /\
    (forall e, In e new <->
       exists r, In r records /\ loop_body today r = Ok [e]).
Proof.
  intros Ht Hok Hocc. induction records as [|r rest IH].
  - exists []. split.
    + intros acc. cbn. by rewrite app_nil_r.
    + intros e. split; [intros [] | intros (r & [] & _)].
  - inversion Hok as [|? ? Hr Hrest]; subst.
    inversion Hocc as [|? ? Hor Horest]; subst.
    destruct (IH Hrest Horest) as (new & Hnew & Hin).
    assert (Hbody : exists l, loop_body today r = Ok l /\
              (l = [] \/ exists e, l = [e])).
    { destruct (Record.birthday r) as [b|] eqn:Hb.
      - destruct (loop_body_spec _ _ _ Ht Hr Hor Hb)
          as (? & ? & _ & _ & _ & ->).
        eexists; split; [reflexivity|]. destruct (_ && _); eauto.
      - unfold loop_body. rewrite Hb. eauto. }
    destruct Hbody as (l & Hl & Hshape).
    exists (l ++ new). split.
    + intros acc. cbn. rewrite Hl, Hnew. by rewrite app_assoc.
    + intros e. rewrite in_app_iff, Hin. split.
      * intros [He | (r' & Hr' & He)].
        -- exists r. split; [left; reflexivity|].
           destruct Hshape as [-> | [e' ->]]; [destruct He|].
           destruct He as [-> | []]. exact Hl.
        -- exists r'. split; [right|]; assumption.
      * intros (r' & [<- | Hr'] & He).
        -- left. rewrite Hl in He. injection He as ->. left; reflexivity.
        -- right. eauto.
Qed.

(** The loop, when some birthday does not exist this year: it raises the
    constructor's error. *)
Lemma upcoming_loop_feb29 today records :
  Date.valid today = true ->
  Forall (fun r => birthday_ok r = true) records ->
  Exists (fun r => occurs_this_year today r = false) records ->
  forall acc,
    upcoming_loop today records acc = Raise (ValueError Date.day_out_of_range).
Proof.
  intros Ht Hok Hex. induction records as [|r rest IH]; intros acc.
  - inversion Hex.
  - inversion Hok as [|? ? Hr Hrest]; subst. cbn.
    destruct (loop_body_total today r Ht Hr) as [[new Hn] | Hn];
      rewrite Hn; [|reflexivity].
    apply IH; [assumption|].
    inversion Hex as [? ? Hhere | ? ? Hthere]; subst; [|assumption].
    rewrite (loop_body_feb29 _ _ Ht Hr Hhere) in Hn. discriminate.
Qed.

Lemma string_eqb_eq (a b : string) : String.eqb a b = true <-> a = b.
Proof. apply String.eqb_eq. Qed.

Lemma distinct_head k keys :
  distinct (k :: keys) = true -> ~ In k keys /\ distinct keys = true.
Proof.
  cbn. intros [Hk Hd]%andb_true_iff. split; [|exact Hd].
  intros Hin. apply negb_true_iff in Hk.
  assert (existsb (String.eqb k) keys = true); [|congruence].
  apply existsb_exists. exists k. split; [exact Hin | by apply string_eqb_eq].
Qed.

Lemma well_formed_cons kv book :
  well_formed (kv :: book) = true ->
  ~ In (fst kv) (map fst book) /\ entry_ok kv = true /\
  well_formed book = true.
Proof.
  unfold well_formed. cbn [map forallb].
  intros [Hd [Hk Hf]%andb_true_iff]%andb_true_iff.
  apply distinct_head in Hd as [Hn Hd].
  repeat split; auto. by rewrite Hd, Hf.
Qed.

Lemma well_formed_key book r :
  well_formed book = true -> In r (values book) ->
  In (Name.value (Record.name r)) (map fst book).
Proof.
  induction book as [|[k v] rest IH]; [intros _ []|].
  intros (_ & Hkv & Hrest)%well_formed_cons [<- | Hin]; cbn.
  - left. unfold entry_ok in Hkv. apply andb_true_iff in Hkv as [Hk _].
    by apply string_eqb_eq in Hk.
  - right. by apply IH.
Qed.

Lemma well_formed_birthdays book :
  well_formed book = true ->
  Forall (fun r => birthday_ok r = true) (values book).
Proof.
  induction book as [|[k v] rest IH]; [constructor|].
  intros (_ & Hkv & Hrest)%well_formed_cons. cbn. constructor; [|by apply IH].
  unfold entry_ok in Hkv. by apply andb_true_iff in Hkv as [_ Hb].
Qed.

(** In a well-formed book a name belongs to one record. *)
Lemma well_formed_unique book r r' :
  well_formed book = true ->
  In r (values book) -> In r' (values book) ->
  Name.value (Record.name r) = Name.value (Record.name r') -> r = r'.
Proof.
  induction book as [|[k v] rest IH]; [intros _ []|].
  intros Hwf. pose proof Hwf as (Hn & Hkv & Hrest)%well_formed_cons.
  cbn [fst] in Hn.
  assert (Hk : k = Name.value (Record.name v)).
  { unfold entry_ok in Hkv. apply andb_true_iff in Hkv as [Hk _].
    by apply string_eqb_eq in Hk. }
  intros [<- | Hr] [<- | Hr'] Heq; auto.
  - exfalso. apply Hn. cbn [snd] in Heq. rewrite Hk, Heq.
    by apply well_formed_key.
  - exfalso. apply Hn. cbn [snd] in Heq. rewrite Hk, <- Heq.
    by apply well_formed_key.
Qed.

(** When the query returns, every birthday of the book exists this year. *)
Lemma returns_occurs today book upcoming :
  Date.valid today = true -> well_formed book = true ->
  get_upcoming_birthdays today book = Ok upcoming ->
  Forall (fun r => occurs_this_year today r = true) (values book).
Proof.
  intros Ht Hwf Hret. apply List.Forall_forall. intros r Hr.
  destruct (occurs_this_year today r) eqn:Hocc; [reflexivity|].
  unfold get_upcoming_birthdays in Hret.
  rewrite (upcoming_loop_feb29 today (values book) Ht) in Hret.
  - discriminate.
  - by apply well_formed_birthdays.
  - apply List.Exists_exists. eauto.
Qed.

(** The entries bearing a record's name, when the query returns: the one
    entry of that record if its occurrence is in the window, none if not. *)
Lemma entries_of_record today book upcoming record b :
  Date.valid today = true -> well_formed book = true ->
  get_upcoming_birthdays today book = Ok upcoming ->
  In record (values book) -> Record.birthday record = Some b ->
  exists occ reported,
    Date.replace_year (Birthday.value b) (Date.year today) = Ok occ /\
    Date.valid occ = true /\
    report_date occ = Ok reported /\
    forall e,
      In e upcoming /\ entry_name e = Name.value (Record.name record) <->
      0 <= Date.sub_days occ today <= 7 /\
      e = mk_entry (Name.value (Record.name record)) (Date.strftime reported).
Proof.
  intros Ht Hwf Hret Hin Hb.
  pose proof (well_formed_birthdays _ Hwf) as Hok.
  pose proof (returns_occurs _ _ _ Ht Hwf Hret) as Hocc.
  destruct (upcoming_loop_spec today _ Ht Hok Hocc) as (new & Hnew & Hmem).
  unfold get_upcoming_birthdays in Hret. rewrite Hnew in Hret. cbn in Hret.
  injection Hret as <-.
  rewrite List.Forall_forall in Hok, Hocc.
  destruct (loop_body_spec today record b Ht (Hok _ Hin) (Hocc _ Hin) Hb)
    as (occ & rep & Hrep & Hv & Hrd & Hbody).
  exists occ, rep. split; [exact Hrep|]. split; [exact Hv|].
  split; [exact Hrd|]. intros e. split.
  - intros [(r' & Hr' & He)%Hmem Hname].
    assert (r' = record) as ->.
    { apply (well_formed_unique book); auto.
      unfold loop_body in He. repeat case_match; simplify_eq/=; done. }
    rewrite Hbody in He.
    destruct ((0 <=? _) && _) eqn:Hw; [|discriminate].
    injection He as <-. split; [lia | reflexivity].
  - intros [Hw ->]. split; [|reflexivity].
    apply Hmem. exists record. split; [exact Hin|].
    rewrite Hbody.
    replace ((0 <=? Date.sub_days occ today) && (Date.sub_days occ today <=? 7))
      with true by lia.
    reflexivity.
Qed.

End BirthdayWindow.

(** ** The birthday window *)

(** C1: when every birthday of a well-formed book exists in the current
    year, [get_upcoming_birthdays] returns, and for every record with a
    birthday the entries bearing its name are: the one entry of that record
    if the number of days from today to this year's occurrence is between 0
    and 7 inclusive, and none otherwise.  The test is on the occurrence
    itself; the date in the entry is the occurrence on a weekday and the
    Monday one or two days after it on a Saturday or Sunday, so that a
    Saturday seven days ahead is included and reported nine days ahead. *)
Theorem upcoming_window_inclusive today book :
  Date.valid today = true ->
  AddressBook.well_formed book = true ->
  forallb (AddressBook.occurs_this_year today) (AddressBook.values book)
    = true ->
  exists upcoming,
    AddressBook.get_upcoming_birthdays today book = Ok upcoming /\
    forall record b,
      In record (AddressBook.values book) ->
      Record.birthday record = Some b ->
      exists occ reported,
        Date.replace_year (Birthday.value b) (Date.year today) = Ok occ /\
        AddressBook.report_date occ = Ok reported /\
        (forall e,
           In e upcoming /\
           AddressBook.entry_name e = Name.value (Record.name record) <->
           0 <= Date.sub_days occ today <= 7 /\
           e = AddressBook.mk_entry (Name.value (Record.name record))
                 (Date.strftime reported)) /\
        (Date.weekday occ < 5 -> reported = occ) /\
        (5 <= Date.weekday occ ->
         Date.weekday reported = 0 /\
         1 <= Date.sub_days reported occ <= 2) /\
        (Date.sub_days occ today = 7 -> Date.weekday occ = 5 ->
         Date.sub_days reported today = 9).
Proof.
  intros Ht Hwf Hocc. rewrite forallb_forall in Hocc.
  apply List.Forall_forall in Hocc.
  destruct (upcoming_loop_spec today _ Ht (well_formed_birthdays _ Hwf) Hocc)
    as (new & Hnew & _).
  exists new. split; [apply (Hnew [])|].
  intros record b Hin Hb.
  destruct (entries_of_record today book new record b Ht Hwf (Hnew []) Hin Hb)
    as (occ & rep & Hocc' & Hv & Hrep & Hent).
  exists occ, rep. split; [exact Hocc'|]. split; [exact Hrep|].
  split; [exact Hent|].
  destruct (report_date_spec occ Hv) as (rep' & Hrep' & _ & Hwd & Hwe).
  rewrite Hrep in Hrep'. injection Hrep' as <-.
  unfold Date.sub_days. split; [exact Hwd|]. split.
  - intros Hw. destruct (Hwe Hw) as [Hm Ho]. split; [exact Hm|].
    unfold Date.weekday in *. Z.to_euclidean_division_equations; lia.
  - intros H7 H5. destruct Hwe as [_ Ho]; lia.
Qed.

Lemma upcoming_window_inclusive_witness :
  exists upcoming,
    AddressBook.get_upcoming_birthdays Sample.new_year Sample.book_ann
      = Ok upcoming /\
    forall record b,
      In record (AddressBook.values Sample.book_ann) ->
      Record.birthday record = Some b ->
      exists occ reported,
        Date.replace_year (Birthday.value b) (Date.year Sample.new_year)
          = Ok occ /\
        AddressBook.report_date occ = Ok reported /\
        (forall e,
           In e upcoming /\
           AddressBook.entry_name e = Name.value (Record.name record) <->
           0 <= Date.sub_days occ Sample.new_year <= 7 /\
           e = AddressBook.mk_entry (Name.value (Record.name record))
                 (Date.strftime reported)) /\
        (Date.weekday occ < 5 -> reported = occ) /\
        (5 <= Date.weekday occ ->
         Date.weekday reported = 0 /\
         1 <= Date.sub_days reported occ <= 2) /\
        (Date.sub_days occ Sample.new_year = 7 -> Date.weekday occ = 5 ->
         Date.sub_days reported Sample.new_year = 9).
Proof.
  apply (upcoming_window_inclusive Sample.new_year Sample.book_ann);
    reflexivity.
Defined.

(** The Saturday 2024-01-06 seen from Monday 2024-01-01 is reported as
    Monday 2024-01-08. *)
Example saturday_reported_monday :
  AddressBook.get_upcoming_birthdays Sample.new_year Sample.book_ann
  = Ok [AddressBook.mk_entry "Ann" "08.01.2024"].
Proof. reflexivity. Qed.

(** A weekday inside the window is reported as it is. *)
Example wednesday_reported_as_is :
  AddressBook.get_upcoming_birthdays Sample.new_year
    [("John", Sample.record "John" [] (Some (Date.mkDate 1990 1 3)))]
  = Ok [AddressBook.mk_entry "John" "03.01.2024"] /\
  Date.weekday (Date.mkDate 2024 1 3) = 2.
Proof. split; reflexivity. Qed.

(** A Saturday seven days ahead is inside the window and reported nine
    days ahead. *)
Example saturday_on_day_seven :
  AddressBook.get_upcoming_birthdays (Date.mkDate 2024 1 6)
    [("Ann", Sample.record "Ann" [] (Some (Date.mkDate 1990 1 13)))]
  = Ok [AddressBook.mk_entry "Ann" "15.01.2024"] /\
  Date.weekday (Date.mkDate 2024 1 13) = 5 /\
  Date.sub_days (Date.mkDate 2024 1 13) (Date.mkDate 2024 1 6) = 7 /\
  Date.sub_days (Date.mkDate 2024 1 15) (Date.mkDate 2024 1 6) = 9.
Proof. repeat split; reflexivity. Qed.

(** C4: in a book of valid records one of which has a birthday on a 29th
    of February, when the current year is not a leap year, replacing the
    year of that birthday fails in the date constructor, and
    [get_upcoming_birthdays] fails with that error. *)
Theorem feb29_common_year_fails today book record b :
  Date.valid today = true ->
  forallb AddressBook.birthday_ok (AddressBook.values book) = true ->
  In record (AddressBook.values book) ->
  Record.birthday record = Some b ->
  Date.is_feb29 (Birthday.value b) = true ->
  Date.is_leap (Date.year today) = false ->
  Date.replace_year (Birthday.value b) (Date.year today)
    = Raise (ValueError Date.day_out_of_range) /\
  AddressBook.get_upcoming_birthdays today book
    = Raise (ValueError Date.day_out_of_range).
Proof.
  intros Ht Hok Hin Hb Hf Hl. rewrite forallb_forall in Hok.
  split.
  - pose proof (replace_year_spec (Birthday.value b) (Date.year today)) as Hr.
    rewrite Hf, Hl in Hr. apply Hr; [|by apply valid_year].
    specialize (Hok _ Hin). unfold AddressBook.birthday_ok in Hok.
    by rewrite Hb in Hok.
  - apply upcoming_loop_feb29; [exact Ht | by apply List.Forall_forall |].
    apply List.Exists_exists. exists record. split; [exact Hin|].
    rewrite (occurs_this_year_spec _ _ _ Hb), Hf, Hl. reflexivity.
Qed.

Lemma feb29_common_year_fails_witness :
  Date.replace_year (Date.mkDate 2000 2 29) 2023
    = Raise (ValueError Date.day_out_of_range) /\
  AddressBook.get_upcoming_birthdays Sample.common_year Sample.book_eve
    = Raise (ValueError Date.day_out_of_range).
Proof.
  apply (feb29_common_year_fails Sample.common_year Sample.book_eve
           Sample.eve (Birthday.mk (Date.mkDate 2000 2 29)));
    try reflexivity.
  right. left. reflexivity.
Defined.

(** C10: when the query returns, it has no entry for a record whose
    occurrence in the current year lies before today, however close the
    occurrence of the next year is. *)
Theorem past_occurrence_excluded today book upcoming record b occ :
  Date.valid today = true ->
  AddressBook.well_formed book = true ->
  AddressBook.get_upcoming_birthdays today book = Ok upcoming ->
  In record (AddressBook.values book) ->
  Record.birthday record = Some b ->
  Date.replace_year (Birthday.value b) (Date.year today) = Ok occ ->
  Date.sub_days occ today < 0 ->
  forall e,
    In e upcoming ->
    AddressBook.entry_name e <> Name.value (Record.name record).
Proof.
  intros Ht Hwf Hret Hin Hb Hocc Hpast e He Hname.
  destruct (entries_of_record today book upcoming record b Ht Hwf Hret Hin Hb)
    as (occ' & rep & Hocc' & _ & _ & Hent).
  rewrite Hocc in Hocc'. injection Hocc' as <-.
  destruct (Hent e) as [Hfwd _]. destruct (Hfwd (conj He Hname)). lia.
Qed.

Lemma past_occurrence_excluded_witness :
  Forall (fun e => AddressBook.entry_name e <> "Bob")
    [AddressBook.mk_entry "Zed" "31.12.2024"].
Proof.
  apply List.Forall_forall.
  apply (past_occurrence_excluded Sample.year_end Sample.book_bob
           [AddressBook.mk_entry "Zed" "31.12.2024"]
           Sample.bob (Birthday.mk (Date.mkDate 1990 1 2))
           (Date.mkDate 2024 1 2)); try reflexivity.
  left. reflexivity.
Defined.

(** On 2024-12-30 a birthday on the 2nd of January is three days ahead,
    and is not listed: the occurrence looked at is 2024-01-02. *)
Example december_does_not_wrap :
  AddressBook.get_upcoming_birthdays Sample.year_end Sample.book_bob
  = Ok [AddressBook.mk_entry "Zed" "31.12.2024"] /\
  Date.sub_days (Date.mkDate 2025 1 2) Sample.year_end = 3 /\
  Date.sub_days (Date.mkDate 2024 1 2) Sample.year_end = -363.
Proof. repeat split; reflexivity. Qed.

(** ** Field validators *)

Section FieldFacts.
Context `{Builtins}.

Lemma all_true p s :
  Str.all p s = true <->
  forall c, In c (list_ascii_of_string s) -> p c = true.
Proof.
  induction s as [|a s IH]; cbn.
  - split; [intros _ c [] | reflexivity].
  - rewrite andb_true_iff, IH. split.
    + intros [Ha Hs] c [<- | Hc]; auto.
    + intros Hall. split; [apply Hall; by left | intros c Hc; apply Hall; by right].
Qed.

Lemma all_false p s :
  Str.all p s = false <->
  exists c, In c (list_ascii_of_string s) /\ p c = false.
Proof.
  induction s as [|a s IH]; cbn.
  - split; [discriminate | intros (c & [] & _)].
  - rewrite andb_false_iff, IH. split.
    + intros [Ha | (c & Hc & Hp)]; [exists a | exists c]; auto.
    + intros (c & [<- | Hc] & Hp); [by left | right; eauto].
Qed.

Lemma isalpha_spec value :
  Str.isalpha value = true <->
  value <> "" /\ Str.all char_isalpha value = true.
Proof.
  destruct value as [|a s]; cbn [Str.isalpha].
  - split; [discriminate | intros [Hne _]; by destruct Hne].
  - split; [intros Ha; split; [discriminate | exact Ha] | intros [_ Ha]; exact Ha].
Qed.

Lemma phone_init_valid value :
  Str.isdigit value = true -> Str.len value = 10 ->
  Phone.init value = Ok (Phone.mk value).
Proof.
  intros Hd Hl. unfold Phone.init. rewrite Hd, Hl. reflexivity.
Qed.

Lemma phone_init_invalid value :
  Str.isdigit value = false \/ Str.len value <> 10 ->
  Phone.init value = Raise (ValueError "Phone number must contain 10 digits").
Proof.
  intros Hbad. unfold Phone.init.
  replace (negb (Str.isdigit value) || negb (Str.len value =? 10))
    with true; [reflexivity|].
  symmetry. apply orb_true_iff.
  destruct Hbad as [-> | Hl]; [by left | right].
  apply negb_true_iff. lia.
Qed.

End FieldFacts.

(** C5 (as the code has it): [Name(value)] fails with "Name must contain
    only letters" exactly when [value] is empty or has a character that is
    not alphabetic, and otherwise holds [value]. *)
Theorem name_requires_letters `{Builtins} (value : string) :
  (Name.init value = Raise (ValueError "Name must contain only letters") <->
   value = "" \/
   exists c, In c (list_ascii_of_string value) /\ char_isalpha c = false) /\
  (Name.init value = Ok (Name.mk value) <->
   value <> "" /\
   forall c, In c (list_ascii_of_string value) -> char_isalpha c = true).
Proof.
  rewrite <- all_false, <- all_true. unfold Name.init.
  pose proof (isalpha_spec value) as Hspec.
  destruct (Str.isalpha value) eqn:Ha; cbn [negb].
  - destruct Hspec as [Hspec _]. destruct (Hspec eq_refl) as [Hne Hall].
    split; split; try discriminate; auto.
    intros [He | Hf]; [contradiction | congruence].
  - split; split; try discriminate; auto.
    + intros _. destruct value as [|a s]; [by left | right].
      cbn [Str.isalpha] in Ha. exact Ha.
    + intros Hboth. apply Hspec in Hboth. discriminate.
Qed.

(** C5 as stated fails on the empty string: all its characters are
    alphabetic, none being there, and the constructor rejects it. *)
Lemma name_rejects_empty_string :
  Forall (fun c => Sample.isalpha c = true) (list_ascii_of_string "") /\
  @Name.init Sample.builtins ""
  = Raise (ValueError "Name must contain only letters").
Proof. split; [constructor | reflexivity]. Qed.

(** ** Phones of a record *)

Section RecordFacts.
Context `{Builtins}.

Lemma first_occurrence (x : string) (l : list string) :
  In x l -> exists before after, l = before ++ x :: after /\ ~ In x before.
Proof.
  induction l as [|y l IH]; [intros []|].
  destruct (String.eqb y x) eqn:E.
  - apply string_eqb_eq in E as ->. intros _. exists [], l. split; auto.
  - intros [Hy | Hin].
    + subst. rewrite String.eqb_refl in E. discriminate.
    + destruct (IH Hin) as (before & after & -> & Hno).
      exists (y :: before), after. split; [reflexivity|].
      intros [Hy | Hb]; [|contradiction].
      subst. rewrite String.eqb_refl in E. discriminate.
Qed.

(** The phone found for [old] is the first with that value, and removing
    it removes that one. *)
Lemma find_remove_first (l : list Phone.t) old before after :
  map Phone.value l = before ++ old :: after -> ~ In old before ->
  find (fun ph => String.eqb (Phone.value ph) old) l = Some (Phone.mk old) /\
  map Phone.value (Record.list_remove (Phone.mk old) l) = before ++ after.
Proof.
  revert l. induction before as [|b before IH]; intros [|[v] l] Heq Hno;
    try discriminate; cbn in Heq; injection Heq as Hv Hl; subst v; cbn.
  - unfold Phone.eqb; cbn. rewrite String.eqb_refl. auto.
  - assert (Hne : String.eqb b old = false).
    { apply not_true_iff_false. rewrite string_eqb_eq. intros ->.
      apply Hno. by left. }
    unfold Phone.eqb; cbn. rewrite Hne.
    destruct (IH l Hl) as [Hf Hr]; [intros Hb; apply Hno; by right|].
    rewrite Hf. cbn. unfold Phone.eqb in Hr. by rewrite Hr.
Qed.

Lemma find_phone_absent self old :
  ~ In old (Record.phone_values self) -> Record.find_phone old self = None.
Proof.
  unfold Record.find_phone, Record.phone_values.
  induction (Record.phones self) as [|[v] l IH]; [reflexivity|].
  cbn. intros Hno. destruct (String.eqb v old) eqn:E.
  - apply string_eqb_eq in E. exfalso. apply Hno. by left.
  - apply IH. intros Hin. apply Hno. by right.
Qed.

(** [edit_phone] when [old] is there: the first [old] is removed, and then
    [new] is validated and appended. *)
Lemma edit_phone_present self old new before after :
  Record.phone_values self = before ++ old :: after -> ~ In old before ->
  Record.edit_phone old new self =
  Record.add_phone new
    (Record.set_phones (Record.list_remove (Phone.mk old) (Record.phones self))
       self) /\
  map Phone.value (Record.list_remove (Phone.mk old) (Record.phones self))
  = before ++ after.
Proof.
  intros Heq Hno.
  destruct (find_remove_first _ _ _ _ Heq Hno) as [Hf Hr].
  split; [|exact Hr].
  unfold Record.edit_phone, se_bind, Record.remove_phone, Record.find_phone.
  rewrite Hf. reflexivity.
Qed.

End RecordFacts.

(** C6: [edit_phone(old, new)] fails with "Phone number is not found" and
    leaves the record as it was when no phone equals [old]; when one does
    and [new] is ten digits, the first phone equal to [old] is removed and
    [new] is appended at the end, name and birthday unchanged.  A record
    holding exactly "1234567890", edited to "0987654321", holds exactly
    "0987654321" afterwards. *)
Theorem edit_phone_replaces `{Builtins} (self : Record.t) (old new : string) :
  (~ In old (Record.phone_values self) ->
   Record.edit_phone old new self
   = (self, Raise (ValueError "Phone number is not found"))) /\
  (In old (Record.phone_values self) ->
   Str.isdigit new = true -> Str.len new = 10 ->
   exists before after self',
     Record.phone_values self = before ++ old :: after /\
     ~ In old before /\
     Record.edit_phone old new self = (self', Ok tt) /\
     Record.phone_values self' = before ++ after ++ [new] /\
     Record.name self' = Record.name self /\
     Record.birthday self' = Record.birthday self) /\
  (Str.isdigit "0987654321" = true ->
   forall name birthday,
   exists self',
     Record.edit_phone "1234567890" "0987654321"
       (Record.mk name [Phone.mk "1234567890"] birthday) = (self', Ok tt) /\
     Record.phone_values self' = ["0987654321"] /\
     In "0987654321" (Record.phone_values self') /\
     ~ In "1234567890" (Record.phone_values self')).
Proof.
  split; [|split].
  - intros Hno. unfold Record.edit_phone.
    by rewrite (find_phone_absent _ _ Hno).
  - intros Hin Hd Hl.
    destruct (first_occurrence _ _ Hin) as (before & after & Heq & Hno).
    destruct (edit_phone_present self old new _ _ Heq Hno) as [He Hr].
    exists before, after. eexists. split; [exact Heq|]. split; [exact Hno|].
    rewrite He. unfold Record.add_phone.
    rewrite (phone_init_valid _ Hd Hl). split; [reflexivity|].
    unfold Record.phone_values. cbn.
    rewrite map_app, Hr. cbn. by rewrite <- app_assoc.
  - intros Hd name birthday. eexists. split.
    + unfold Record.edit_phone, se_bind, Record.remove_phone,
        Record.find_phone, Record.add_phone. cbn.
      rewrite (phone_init_valid "0987654321" Hd eq_refl). reflexivity.
    + cbn. split; [reflexivity|]. split; [by left|].
      intros [Heq | []]. discriminate.
Qed.

Lemma edit_phone_replaces_witness :
  (exists before after self',
     Record.phone_values
       (Sample.record "John" ["1111111111"; "1234567890"; "1234567890"] None)
     = before ++ "1234567890" :: after /\
     ~ In "1234567890" before /\
     @Record.edit_phone Sample.builtins "1234567890" "0987654321"
       (Sample.record "John" ["1111111111"; "1234567890"; "1234567890"] None)
     = (self', Ok tt) /\
     Record.phone_values self' = before ++ after ++ ["0987654321"] /\
     Record.name self' = Name.mk "John" /\
     Record.birthday self' = None) /\
  (exists self',
     @Record.edit_phone Sample.builtins "1234567890" "0987654321"
       (Record.mk (Name.mk "John") [Phone.mk "1234567890"] None)
     = (self', Ok tt) /\
     Record.phone_values self' = ["0987654321"] /\
     In "0987654321" (Record.phone_values self') /\
     ~ In "1234567890" (Record.phone_values self')).
Proof.
  split.
  - apply (proj1 (proj2 (@edit_phone_replaces Sample.builtins
      (Sample.record "John" ["1111111111"; "1234567890"; "1234567890"] None)
      "1234567890" "0987654321"))); [|reflexivity|reflexivity].
    right. left. reflexivity.
  - exact (proj2 (proj2 (@edit_phone_replaces Sample.builtins
      (Record.mk (Name.mk "John") [Phone.mk "1234567890"] None)
      "1234567890" "0987654321")) eq_refl (Name.mk "John") None).
Defined.

(** Calling with a value no phone has fails and changes nothing. *)
Example edit_phone_not_found :
  @Record.edit_phone Sample.builtins "5555555555" "0987654321"
    (Sample.record "John" ["1234567890"] None)
  = (Sample.record "John" ["1234567890"] None,
     Raise (ValueError "Phone number is not found")).
Proof. reflexivity. Qed.

(** The position is not kept: the edited phone moves to the end. *)
Example edit_phone_moves_last :
  @Record.edit_phone Sample.builtins "1111111111" "3333333333"
    (Sample.record "John" ["1111111111"; "2222222222"] None)
  = (Sample.record "John" ["2222222222"; "3333333333"] None, Ok tt).
Proof. reflexivity. Qed.

(** C9: when [old] is among the phones and [new] is not ten digits,
    [edit_phone(old, new)] raises the phone validation error after the
    removal: the record it leaves has lost the first [old], has not gained
    [new], and differs from the record before the call. *)
Theorem edit_phone_not_atomic `{Builtins} (self : Record.t)
    (old new : string) :
  In old (Record.phone_values self) ->
  Str.isdigit new = false \/ Str.len new <> 10 ->
  exists before after self',
    Record.phone_values self = before ++ old :: after /\
    ~ In old before /\
    Record.edit_phone old new self
    = (self', Raise (ValueError "Phone number must contain 10 digits")) /\
    Record.phone_values self' = before ++ after /\
    self' <> self.
Proof.
  intros Hin Hbad.
  destruct (first_occurrence _ _ Hin) as (before & after & Heq & Hno).
  destruct (edit_phone_present self old new _ _ Heq Hno) as [He Hr].
  exists before, after. eexists. split; [exact Heq|]. split; [exact Hno|].
  rewrite He. unfold Record.add_phone. rewrite (phone_init_invalid _ Hbad).
  split; [reflexivity|]. split; [exact Hr|].
  intros Hsame. apply (f_equal Record.phone_values) in Hsame.
  unfold Record.phone_values in Hsame at 1. cbn in Hsame.
  rewrite Hr, Heq in Hsame. apply (f_equal length) in Hsame.
  rewrite !length_app in Hsame. cbn in Hsame. lia.
Qed.

Lemma edit_phone_not_atomic_witness :
  exists before after self',
    Record.phone_values (Sample.record "John" ["1234567890"] None)
    = before ++ "1234567890" :: after /\
    ~ In "1234567890" before /\
    @Record.edit_phone Sample.builtins "1234567890" "12345"
      (Sample.record "John" ["1234567890"] None)
    = (self', Raise (ValueError "Phone number must contain 10 digits")) /\
    Record.phone_values self' = before ++ after /\
    self' <> Sample.record "John" ["1234567890"] None.
Proof.
  apply (@edit_phone_not_atomic Sample.builtins
           (Sample.record "John" ["1234567890"] None) "1234567890" "12345").
  - left. reflexivity.
  - right. discriminate.
Defined.

(** The record of the example is left without any phone. *)
Example edit_phone_loses_old :
  @Record.edit_phone Sample.builtins "1234567890" "12345"
    (Sample.record "John" ["1234567890"] None)
  = (Sample.record "John" [] None,
     Raise (ValueError "Phone number must contain 10 digits")).
Proof. reflexivity. Qed.

(** ** The book as a dictionary *)

Section BookFacts.
Import AddressBook.

Lemma dict_get_set_eq k v d : dict_get k (dict_set k v d) = Some v.
Proof.
  induction d as [|[k' v'] d IH]; cbn.
  - by rewrite String.eqb_refl.
  - destruct (String.eqb k' k) eqn:E; cbn; rewrite E; [reflexivity | exact IH].
Qed.

Lemma dict_get_set_ne k k' v d :
  k' <> k -> dict_get k' (dict_set k v d) = dict_get k' d.
Proof.
  intros Hne. induction d as [|[k0 v0] d IH]; cbn.
  - destruct (String.eqb k k') eqn:E; [|reflexivity].
    apply string_eqb_eq in E. congruence.
  - destruct (String.eqb k0 k) eqn:E; cbn.
    + apply string_eqb_eq in E as ->.
      destruct (String.eqb k k') eqn:E'; [|reflexivity].
      apply string_eqb_eq in E'. congruence.
    + by rewrite IH.
Qed.

Lemma existsb_eqb_in k keys :
  existsb (String.eqb k) keys = true <-> In k keys.
Proof.
  rewrite existsb_exists. split.
  - intros (x & Hx & ->%string_eqb_eq). exact Hx.
  - intros Hk. exists k. split; [exact Hk | apply String.eqb_refl].
Qed.

(** Assigning to a key keeps the keys that were there, in their order,
    and adds the key at the end when it is new. *)
Lemma dict_set_keys k v d :
  map fst (dict_set k v d) =
  if existsb (String.eqb k) (map fst d) then map fst d
  else map fst d ++ [k].
Proof.
  induction d as [|[k' v'] d IH]; [reflexivity|]. cbn.
  rewrite (String.eqb_sym k k').
  destruct (String.eqb k' k) eqn:E; cbn; [reflexivity|].
  rewrite IH. by destruct (existsb _ _).
Qed.

Lemma distinct_snoc keys k :
  distinct keys = true -> ~ In k keys -> distinct (keys ++ [k]) = true.
Proof.
  induction keys as [|k0 keys IH]; [reflexivity|]. cbn.
  intros [Hk0 Hd]%andb_true_iff Hno. apply andb_true_iff. split.
  - apply negb_true_iff, not_true_iff_false. rewrite existsb_eqb_in.
    intros [Hin | [-> | []]]%in_app_iff.
    + apply negb_true_iff, not_true_iff_false in Hk0.
      by rewrite existsb_eqb_in in Hk0.
    + apply Hno. by left.
  - apply IH; [exact Hd | intros Hin; apply Hno; by right].
Qed.

Lemma dict_set_distinct k v d :
  distinct (map fst d) = true -> distinct (map fst (dict_set k v d)) = true.
Proof.
  intros Hd. rewrite dict_set_keys.
  destruct (existsb _ _) eqn:E; [exact Hd|].
  apply distinct_snoc; [exact Hd|].
  rewrite <- existsb_eqb_in. congruence.
Qed.

Lemma under_absent k d : ~ In k (map fst d) -> under k d = [].
Proof.
  unfold under. induction d as [|[k' v'] d IH]; [reflexivity|]. cbn.
  intros Hno. destruct (String.eqb k' k) eqn:E.
  - apply string_eqb_eq in E. exfalso. apply Hno. by left.
  - apply IH. intros Hin. apply Hno. by right.
Qed.

(** After an assignment to [k], a book with distinct keys holds the value
    assigned under [k] and nothing else. *)
Lemma under_dict_set k v d :
  distinct (map fst d) = true -> under k (dict_set k v d) = [v].
Proof.
  unfold under. induction d as [|[k' v'] d IH]; cbn.
  - by rewrite String.eqb_refl.
  - intros [Hk' Hd]%andb_true_iff.
    destruct (String.eqb k' k) eqn:E; cbn; rewrite E.
    + cbn. f_equal. apply string_eqb_eq in E as ->. apply under_absent.
      apply negb_true_iff, not_true_iff_false in Hk'.
      by rewrite existsb_eqb_in in Hk'.
    + by apply IH.
Qed.

End BookFacts.

(** C7: [add_record] stores the record under its name and leaves every
    other key as it was; after two calls with records of one name the book
    holds the second under that name, and in a book with distinct keys the
    second is all that is stored under it. *)
Theorem add_record_upsert (book : AddressBook.t) (first second : Record.t) :
  Name.value (Record.name first) = Name.value (Record.name second) ->
  let key := Name.value (Record.name second) in
  let once := AddressBook.add_record second book in
  let twice := AddressBook.add_record second (AddressBook.add_record first book) in
  AddressBook.find_record key once = Some second /\
  (forall name, name <> key ->
     AddressBook.find_record name once = AddressBook.find_record name book) /\
  AddressBook.find_record key twice = Some second /\
  (forall name, name <> key ->
     AddressBook.find_record name twice = AddressBook.find_record name book) /\
  (AddressBook.distinct (map fst book) = true ->
   AddressBook.distinct (map fst twice) = true /\
   AddressBook.under key twice = [second]).
Proof.
  intros Hname key once twice. subst key once twice.
  unfold AddressBook.add_record, AddressBook.find_record. rewrite Hname.
  repeat split.
  - apply dict_get_set_eq.
  - intros name Hne. by apply dict_get_set_ne.
  - apply dict_get_set_eq.
  - intros name Hne. by rewrite !dict_get_set_ne.
  - by do 2 apply dict_set_distinct.
  - apply under_dict_set. by apply dict_set_distinct.
Qed.

Lemma add_record_upsert_witness :
  let first := Sample.record "Bob" ["1111111111"] None in
  let second := Sample.record "Bob" ["2222222222"] None in
  let once := AddressBook.add_record second Sample.book_ann in
  let twice :=
    AddressBook.add_record second (AddressBook.add_record first Sample.book_ann) in
  AddressBook.find_record "Bob" once = Some second /\
  (forall name, name <> "Bob" ->
     AddressBook.find_record name once
     = AddressBook.find_record name Sample.book_ann) /\
  AddressBook.find_record "Bob" twice = Some second /\
  (forall name, name <> "Bob" ->
     AddressBook.find_record name twice
     = AddressBook.find_record name Sample.book_ann) /\
  AddressBook.distinct (map fst twice) = true /\
  AddressBook.under "Bob" twice = [second].
Proof.
  destruct (add_record_upsert Sample.book_ann
              (Sample.record "Bob" ["1111111111"] None)
              (Sample.record "Bob" ["2222222222"] None) eq_refl)
    as (H1 & H2 & H3 & H4 & H5).
  repeat split; try assumption; apply (H5 eq_refl).
Defined.

(** The phones of the two records are not merged. *)
Example add_record_replaces :
  AddressBook.add_record (Sample.record "Bob" ["2222222222"] None)
    (AddressBook.add_record (Sample.record "Bob" ["1111111111"] None)
       Sample.book_ann)
  = [("Ann", Sample.ann); ("Bob", Sample.record "Bob" ["2222222222"] None)].
Proof. reflexivity. Qed.

(** ** Persistence *)

Lemma of_bits_bits p : Sample.of_bits (Sample.bits p) = Some p.
Proof. induction p as [p IH | p IH |]; cbn; by rewrite ?IH. Qed.

Lemma sample_pickle_faithful : @pickle_faithful Sample.pickle.
Proof.
  intros book. cbn. unfold Sample.loads, Sample.dumps.
  rewrite of_bits_bits. cbn. by rewrite decode_encode.
Qed.

Section PersistenceFacts.
Context `{Pickle}.

Lemma read_after_write filename bytes fs fs' :
  write_file filename bytes fs = Ok fs' ->
  read_file filename fs' = Ok bytes.
Proof.
  unfold write_file, read_file. intros Hw.
  assert (fs' = <[filename := Content bytes]> fs) as ->.
  { destruct (fs !! filename) as [[|]|]; congruence. }
  by rewrite lookup_insert_eq.
Qed.

Lemma write_file_allowed filename bytes fs :
  fs !! filename <> Some Denied ->
  write_file filename bytes fs = Ok (<[filename := Content bytes]> fs).
Proof.
  unfold write_file. intros Hok.
  destruct (fs !! filename) as [[|]|]; congruence.
Qed.

End PersistenceFacts.

(** C3: with a pickle that restores what it has written, saving a book to
    a file that can be written succeeds, and loading from that file
    afterwards returns the same book: the same names, each with the same
    phones and the same birthday. *)
Theorem save_load_roundtrip `{Pickle} (book : AddressBook.t)
    (filename : string) (fs : filesystem) :
  pickle_faithful ->
  fs !! filename <> Some Denied ->
  exists fs',
    save_data book filename fs = Ok fs' /\
    load_data filename fs' = Ok book.
Proof.
  intros Hp Hok. eexists. unfold save_data. split.
  - by apply write_file_allowed.
  - unfold load_data.
    erewrite read_after_write by (by apply write_file_allowed).
    rewrite Hp. reflexivity.
Qed.

Lemma save_load_roundtrip_witness :
  exists fs',
    @save_data Sample.pickle Sample.book_eve default_filename ∅ = Ok fs' /\
    @load_data Sample.pickle default_filename fs' = Ok Sample.book_eve.
Proof.
  apply (@save_load_roundtrip Sample.pickle Sample.book_eve default_filename ∅
           sample_pickle_faithful).
  rewrite lookup_empty. discriminate.
Defined.

(** C8 (as the code has it): loading returns an empty book when the file is
    absent and the book the contents deserialise to when the file can be
    read and they are a serialised book; a file that cannot be read and
    contents that cannot be deserialised raise, and the exception is not
    caught. *)
Theorem load_data_cases `{Pickle} (filename : string) (fs : filesystem) :
  (fs !! filename = None -> load_data filename fs = Ok AddressBook.empty) /\
  (forall bytes book,
     fs !! filename = Some (Content bytes) -> pickle_loads bytes = Ok book ->
     load_data filename fs = Ok book) /\
  (fs !! filename = Some Denied ->
   load_data filename fs = Raise PermissionError) /\
  (forall bytes e,
     fs !! filename = Some (Content bytes) -> pickle_loads bytes = Raise e ->
     e <> FileNotFoundError ->
     load_data filename fs = Raise e).
Proof.
  unfold load_data, read_file. repeat split.
  - by intros ->.
  - intros bytes book -> ->. reflexivity.
  - by intros ->.
  - intros bytes e -> -> Hne. by destruct e.
Qed.

Lemma load_data_cases_witness :
  @load_data Sample.pickle default_filename ∅ = Ok AddressBook.empty /\
  @load_data Sample.pickle default_filename
    {[ default_filename := Content (Sample.dumps Sample.book_ann) ]}
  = Ok Sample.book_ann /\
  @load_data Sample.pickle default_filename {[ default_filename := Denied ]}
  = Raise PermissionError /\
  @load_data Sample.pickle default_filename
    {[ default_filename := Content [Byte.x00] ]} = Raise UnpicklingError.
Proof.
  split; [|split; [|split]].
  - apply (@load_data_cases Sample.pickle default_filename ∅). reflexivity.
  - apply (proj1 (proj2 (@load_data_cases Sample.pickle default_filename
             {[ default_filename := Content (Sample.dumps Sample.book_ann) ]}))
             (Sample.dumps Sample.book_ann) Sample.book_ann);
      [reflexivity | apply sample_pickle_faithful].
  - apply (proj1 (proj2 (proj2 (@load_data_cases Sample.pickle default_filename
             {[ default_filename := Denied ]})))). reflexivity.
  - apply (proj2 (proj2 (proj2 (@load_data_cases Sample.pickle default_filename
             {[ default_filename := Content [Byte.x00] ]})))
             [Byte.x00] UnpicklingError); [reflexivity | reflexivity | discriminate].
Defined.

(** C8 as stated fails on a file that is there and cannot be read, and on
    an empty file: the exception leaves [load_data]. *)
Lemma load_data_unreadable_raises :
  @load_data Sample.pickle default_filename {[ default_filename := Denied ]}
  = Raise PermissionError /\
  @load_data Sample.pickle default_filename {[ default_filename := Content [] ]}
  = Raise EOFError.
Proof. split; reflexivity. Qed.

(** ** The command loop *)

Section LoopFacts.
Context `{Builtins} `{Pickle}.

Lemma split_blank word line :
  Str.all char_isspace line = true ->
  Str.split_from word line =
  match word with EmptyString => [] | _ => [word] end.
Proof.
  revert word. induction line as [|c line IH]; intros word; cbn.
  - reflexivity.
  - intros [-> Hl]%andb_true_iff. rewrite (IH "" Hl).
    by destruct word.
Qed.

Lemma input_error_returns {Args : Type}
    (func : Args -> SE AddressBook.t string) args book :
  (forall book' e, func args book = (book', Raise e) -> catchable e = true) ->
  exists book' line, input_error func args book = (book', Ok line).
Proof.
  intros Hc. unfold input_error.
  destruct (func args book) as [book' [line | e]] eqn:Hf; [eauto|].
  specialize (Hc book' e eq_refl). destruct e; try discriminate; eauto.
Qed.

Lemma date_new_raises y m d e : Date.new y m d = Raise e -> catchable e = true.
Proof. unfold Date.new. repeat case_match; intros; by simplify_eq. Qed.

Lemma name_init_raises value e :
  Name.init value = Raise e -> catchable e = true.
Proof. unfold Name.init. case_match; intros; by simplify_eq. Qed.

Lemma phone_init_raises value e :
  Phone.init value = Raise e -> catchable e = true.
Proof. unfold Phone.init. case_match; intros; by simplify_eq. Qed.

Lemma birthday_init_raises value e :
  Birthday.init value = Raise e -> catchable e = true.
Proof.
  unfold Birthday.init, Birthday.strptime.
  destruct (strptime_fields value) as [[[d m] y]|].
  - destruct (Date.new y m d) as [|e'] eqn:Hn; [discriminate|].
    apply date_new_raises in Hn. destruct e'; try discriminate;
      intros; by simplify_eq.
  - intros; by simplify_eq.
Qed.

Lemma add_phone_raises phone self self' e :
  Record.add_phone phone self = (self', Raise e) -> catchable e = true.
Proof.
  unfold Record.add_phone. destruct (Phone.init phone) eqn:Hp;
    intros; simplify_eq. by eapply phone_init_raises.
Qed.

Lemma edit_phone_raises old new self self' e :
  Record.edit_phone old new self = (self', Raise e) -> catchable e = true.
Proof.
  unfold Record.edit_phone, se_bind, Record.remove_phone.
  destruct (Record.find_phone old self); [|intros; by simplify_eq].
  apply add_phone_raises.
Qed.

Lemma add_birthday_raises birthday self self' e :
  Record.add_birthday birthday self = (self', Raise e) -> catchable e = true.
Proof.
  unfold Record.add_birthday. destruct (Birthday.init birthday) eqn:Hb;
    intros; simplify_eq. by eapply birthday_init_raises.
Qed.

Lemma on_record_raises {A} key record (m : SE Record.t A) book book' e :
  (forall self' e', m record = (self', Raise e') -> catchable e' = true) ->
  AddressBook.on_record key record m book = (book', Raise e) ->
  catchable e = true.
Proof.
  unfold AddressBook.on_record. intros Hm.
  destruct (m record) as [self' r] eqn:E. intros; simplify_eq. eauto.
Qed.

(** When the query raises on a book of valid records, it raises the
    constructor's [ValueError]. *)
Lemma upcoming_loop_raises today records acc e :
  Date.valid today = true ->
  Forall (fun r => AddressBook.birthday_ok r = true) records ->
  AddressBook.upcoming_loop today records acc = Raise e ->
  e = ValueError Date.day_out_of_range.
Proof.
  intros Ht Hok. revert acc. induction records as [|r rest IH]; intros acc.
  - discriminate.
  - inversion Hok as [|? ? Hr Hrest]; subst. cbn.
    destruct (loop_body_total today r Ht Hr) as [[new Hn] | Hn]; rewrite Hn.
    + by apply IH.
    + congruence.
Qed.

Lemma add_contact_raises args book book' e :
  add_contact_func args book = (book', Raise e) -> catchable e = true.
Proof.
  unfold add_contact_func, se_raise.
  destruct args as [|name [|phone args]]; try (intros; by simplify_eq).
  unfold se_bind, find_or_create, se_ret.
  destruct (AddressBook.find_record name book) as [record|]; cbn.
  - destruct (nonempty phone); [|discriminate].
    destruct (AddressBook.on_record _ _ _ _) as [b1 [[]|e1]] eqn:E;
      [discriminate|].
    intros; simplify_eq.
    eapply on_record_raises; [|exact E]. apply add_phone_raises.
  - destruct (Record.init name) as [record|e0] eqn:Hi.
    + destruct (nonempty phone); [|discriminate].
      destruct (AddressBook.on_record _ _ _ _) as [b1 [[]|e1]] eqn:E;
        [discriminate|].
      intros; simplify_eq.
      eapply on_record_raises; [|exact E]. apply add_phone_raises.
    + intros; simplify_eq. unfold Record.init in Hi.
      destruct (Name.init name) eqn:Hn; simplify_eq.
      by eapply name_init_raises.
Qed.

Lemma change_contact_raises args book book' e :
  change_contact_func args book = (book', Raise e) -> catchable e = true.
Proof.
  unfold change_contact_func.
  destruct args as [|name [|old [|new args]]]; try (intros; by simplify_eq).
  destruct (AddressBook.find_record name book) as [record|];
    [|discriminate].
  unfold se_bind, se_ret.
  destruct (AddressBook.on_record _ _ _ _) as [b1 [[]|e1]] eqn:E;
    [discriminate|].
  intros; simplify_eq.
  eapply on_record_raises; [|exact E]. apply edit_phone_raises.
Qed.

Lemma add_birthday_func_raises args book book' e :
  add_birthday_func args book = (book', Raise e) -> catchable e = true.
Proof.
  unfold add_birthday_func.
  destruct args as [|name [|birthday args]]; try (intros; by simplify_eq).
  destruct (AddressBook.find_record name book) as [record|];
    [|discriminate].
  unfold se_bind, se_ret.
  destruct (AddressBook.on_record _ _ _ _) as [b1 [[]|e1]] eqn:E;
    [discriminate|].
  intros; simplify_eq.
  eapply on_record_raises; [|exact E]. apply add_birthday_raises.
Qed.

Lemma phone_contact_raises args book book' e :
  phone_contact_func args book = (book', Raise e) -> catchable e = true.
Proof.
  unfold phone_contact_func. repeat case_match; intros; by simplify_eq.
Qed.

Lemma show_birthday_raises args book book' e :
  show_birthday_func args book = (book', Raise e) -> catchable e = true.
Proof.
  unfold show_birthday_func. repeat case_match; intros; by simplify_eq.
Qed.

Lemma show_all_raises u book book' e :
  show_all_contacts_func u book = (book', Raise e) -> catchable e = true.
Proof.
  unfold show_all_contacts_func. repeat case_match; intros; by simplify_eq.
Qed.

Lemma birthdays_raises today args book book' e :
  Date.valid today = true ->
  forallb AddressBook.birthday_ok (AddressBook.values book) = true ->
  birthdays_func today args book = (book', Raise e) -> catchable e = true.
Proof.
  intros Ht Hok. unfold birthdays_func, AddressBook.get_upcoming_birthdays.
  destruct (AddressBook.upcoming_loop _ _ _) as [[|]|e'] eqn:E;
    try discriminate.
  intros; simplify_eq.
  rewrite forallb_forall in Hok. apply List.Forall_forall in Hok.
  by rewrite (upcoming_loop_raises _ _ _ _ Ht Hok E).
Qed.

Lemma print_result_runs r book' line :
  r = (book', Ok line) -> print_result r = ([line], Running book').
Proof. by intros ->. Qed.

(** A line with a word on it never ends the process, unless it is [close]
    or [exit] and the file cannot be written. *)
Lemma main_step_escapes_only today fs user_input book out e :
  Date.valid today = true ->
  forallb AddressBook.birthday_ok (AddressBook.values book) = true ->
  main_step today fs user_input book = (out, Crashed e) ->
  Str.split user_input = [] \/
  e = PermissionError /\ fs !! default_filename = Some Denied.
Proof.
  intros Ht Hok Hstep. unfold main_step, parse_input in Hstep.
  destruct (Str.split user_input) as [|cmd args]; [by left|]. right.
  set (command := Str.lower (Str.strip cmd)) in *. clearbody command.
  assert (Hrun : forall {Args} (func : Args -> SE AddressBook.t string) a,
    (forall book' e', func a book = (book', Raise e') -> catchable e' = true) ->
    print_result (input_error func a book) <> (out, Crashed e)).
  { intros Args func a Hc.
    destruct (input_error_returns func a book Hc) as (b' & l & ->).
    discriminate. }
  repeat case_match; try discriminate;
    try (exfalso; revert Hstep; apply Hrun; intros b' e';
         first [ apply add_contact_raises | apply change_contact_raises
               | apply phone_contact_raises | apply show_all_raises
               | apply add_birthday_func_raises | apply show_birthday_raises
               | by apply birthdays_raises ]).
  simplify_eq. unfold save_data, write_file in *.
  repeat case_match; by simplify_eq.
Qed.

(** *** The birthdays of the book stay valid dates along the loop *)

Lemma book_ok_forallb book :
  book_ok book <->
  forallb AddressBook.birthday_ok (AddressBook.values book) = true.
Proof. unfold book_ok. by rewrite forallb_forall, List.Forall_forall. Qed.

Lemma dict_set_ok k v book :
  book_ok book -> AddressBook.birthday_ok v = true ->
  book_ok (AddressBook.dict_set k v book).
Proof.
  unfold book_ok. intros Hb Hv.
  induction book as [|[k' v'] book IH]; cbn.
  - by constructor.
  - inversion Hb as [|? ? Hv' Hrest]; subst.
    destruct (String.eqb k' k); cbn; constructor; auto.
Qed.

Lemma dict_get_ok k book v :
  book_ok book -> AddressBook.dict_get k book = Some v ->
  AddressBook.birthday_ok v = true.
Proof.
  unfold book_ok. induction book as [|[k' v'] book IH]; [discriminate|].
  cbn. intros Hb. inversion Hb as [|? ? Hv' Hrest]; subst.
  destruct (String.eqb k' k); [intros; by simplify_eq | by apply IH].
Qed.

Lemma date_new_valid y m d dt :
  Date.new y m d = Ok dt -> Date.valid dt = true.
Proof.
  unfold Date.new, Date.valid.
  destruct (_ && _) eqn:Hy; cbn [negb]; [|discriminate].
  destruct ((1 <=? m) && _) eqn:Hm; cbn [negb]; [|discriminate].
  destruct ((1 <=? d) && _) eqn:Hd; cbn [negb]; [|discriminate].
  intros; simplify_eq. cbn. lia.
Qed.

Lemma add_phone_birthday phone self self' r :
  Record.add_phone phone self = (self', r) ->
  Record.birthday self' = Record.birthday self.
Proof.
  unfold Record.add_phone. destruct (Phone.init phone); intros; by simplify_eq.
Qed.

Lemma edit_phone_birthday old new self self' r :
  Record.edit_phone old new self = (self', r) ->
  Record.birthday self' = Record.birthday self.
Proof.
  unfold Record.edit_phone, se_bind, Record.remove_phone.
  destruct (Record.find_phone old self); [|intros; by simplify_eq].
  intros Ha. by apply add_phone_birthday in Ha.
Qed.

Lemma add_birthday_ok birthday self self' r :
  AddressBook.birthday_ok self = true ->
  Record.add_birthday birthday self = (self', r) ->
  AddressBook.birthday_ok self' = true.
Proof.
  unfold Record.add_birthday, Birthday.init, Birthday.strptime.
  intros Hok.
  destruct (strptime_fields birthday) as [[[d m] y]|];
    [|intros; by simplify_eq].
  destruct (Date.new y m d) as [dt|e] eqn:Hn.
  - intros; simplify_eq. unfold AddressBook.birthday_ok. cbn.
    by eapply date_new_valid.
  - destruct e; intros; by simplify_eq.
Qed.

Lemma on_record_ok {A} key record (m : SE Record.t A) book book' r :
  book_ok book ->
  (forall self' r', m record = (self', r') ->
     AddressBook.birthday_ok self' = true) ->
  AddressBook.on_record key record m book = (book', r) -> book_ok book'.
Proof.
  unfold AddressBook.on_record. intros Hb Hm.
  destruct (m record) as [self' r'] eqn:E. intros; simplify_eq.
  apply dict_set_ok; eauto.
Qed.

Lemma birthday_ok_same self self' :
  Record.birthday self' = Record.birthday self ->
  AddressBook.birthday_ok self = true -> AddressBook.birthday_ok self' = true.
Proof. unfold AddressBook.birthday_ok. by intros ->. Qed.

Lemma find_or_create_ok name book book' record message :
  book_ok book ->
  find_or_create name book = (book', Ok (record, message)) ->
  book_ok book' /\ AddressBook.birthday_ok record = true.
Proof.
  unfold find_or_create, AddressBook.find_record. intros Hb.
  destruct (AddressBook.dict_get name book) as [r|] eqn:Hg.
  - intros; simplify_eq. split; [exact Hb | by eapply dict_get_ok].
  - unfold Record.init. destruct (Name.init name); [|discriminate].
    intros; simplify_eq. split; [|reflexivity].
    by apply dict_set_ok.
Qed.

Lemma add_contact_ok args book book' r :
  book_ok book -> add_contact_func args book = (book', r) -> book_ok book'.
Proof.
  intros Hb. unfold add_contact_func, se_raise.
  destruct args as [|name [|phone args]]; try (intros; by simplify_eq).
  unfold se_bind, se_ret.
  destruct (find_or_create name book) as [b1 [[record message]|e]] eqn:Hf.
  - destruct (find_or_create_ok _ _ _ _ _ Hb Hf) as [Hb1 Hr].
    cbn [fst snd]. destruct (nonempty phone); [|intros; by simplify_eq].
    destruct (AddressBook.on_record _ _ _ _) as [b2 r2] eqn:E.
    assert (book_ok b2).
    { eapply on_record_ok; [exact Hb1 | | exact E].
      intros self' r' Ha. apply add_phone_birthday in Ha.
      by eapply birthday_ok_same. }
    destruct r2 as [[]|]; intros; by simplify_eq.
  - unfold find_or_create in Hf.
    destruct (AddressBook.find_record name book); [discriminate|].
    destruct (Record.init name); intros; by simplify_eq.
Qed.

Lemma change_contact_ok args book book' r :
  book_ok book -> change_contact_func args book = (book', r) -> book_ok book'.
Proof.
  intros Hb. unfold change_contact_func.
  destruct args as [|name [|old [|new args]]]; try (intros; by simplify_eq).
  destruct (AddressBook.find_record name book) as [record|] eqn:Hg;
    [|intros; by simplify_eq].
  unfold se_bind, se_ret.
  destruct (AddressBook.on_record _ _ _ _) as [b2 r2] eqn:E.
  assert (book_ok b2).
  { eapply on_record_ok; [exact Hb | | exact E].
    intros self' r' Ha. apply edit_phone_birthday in Ha.
    eapply birthday_ok_same; [exact Ha|]. by eapply dict_get_ok. }
  destruct r2 as [[]|]; intros; by simplify_eq.
Qed.

Lemma add_birthday_func_ok args book book' r :
  book_ok book -> add_birthday_func args book = (book', r) -> book_ok book'.
Proof.
  intros Hb. unfold add_birthday_func.
  destruct args as [|name [|birthday args]]; try (intros; by simplify_eq).
  destruct (AddressBook.find_record name book) as [record|] eqn:Hg;
    [|intros; by simplify_eq].
  unfold se_bind, se_ret.
  destruct (AddressBook.on_record _ _ _ _) as [b2 r2] eqn:E.
  assert (book_ok b2).
  { eapply on_record_ok; [exact Hb | | exact E].
    intros self' r' Ha. eapply add_birthday_ok; [|exact Ha].
    by eapply dict_get_ok. }
  destruct r2 as [[]|]; intros; by simplify_eq.
Qed.

Lemma input_error_ok {Args : Type}
    (func : Args -> SE AddressBook.t string) args book book' r :
  (forall b r', func args book = (b, r') -> book_ok b) ->
  input_error func args book = (book', r) -> book_ok book'.
Proof.
  unfold input_error. intros Hf.
  destruct (func args book) as [b [line|e]] eqn:E.
  - intros; simplify_eq. eauto.
  - specialize (Hf b _ eq_refl). destruct e; intros; by simplify_eq.
Qed.

Lemma print_result_running r out book' :
  print_result r = (out, Running book') -> exists line, r = (book', Ok line).
Proof.
  unfold print_result. destruct r as [b [line|e]]; intros; simplify_eq. eauto.
Qed.

Lemma main_step_ok today fs user_input book out book' :
  book_ok book ->
  main_step today fs user_input book = (out, Running book') -> book_ok book'.
Proof.
  intros Hb Hstep. unfold main_step in Hstep.
  assert (Hsame : forall {Args} (func : Args -> SE AddressBook.t string) a,
    (forall b r, func a book = (b, r) -> b = book) ->
    print_result (input_error func a book) = (out, Running book') ->
    book_ok book').
  { intros Args func a Hf [line Hp]%print_result_running.
    eapply input_error_ok; [|exact Hp]. intros b r' ->%Hf. exact Hb. }
  assert (Hpres : forall {Args} (func : Args -> SE AddressBook.t string) a,
    (forall b r, func a book = (b, r) -> book_ok b) ->
    print_result (input_error func a book) = (out, Running book') ->
    book_ok book').
  { intros Args func a Hf [line Hp]%print_result_running.
    eapply input_error_ok; [|exact Hp]. exact Hf. }
  repeat case_match; simplify_eq; try exact Hb.
  - eapply Hpres; [|eassumption]. intros b r. by apply add_contact_ok.
  - eapply Hpres; [|eassumption]. intros b r. by apply change_contact_ok.
  - eapply Hsame; [|eassumption]. intros b r.
    unfold phone_contact_func. repeat case_match; intros; by simplify_eq.
  - eapply Hsame; [|eassumption]. intros b r.
    unfold show_all_contacts_func. repeat case_match; intros; by simplify_eq.
  - eapply Hpres; [|eassumption]. intros b r. by apply add_birthday_func_ok.
  - eapply Hsame; [|eassumption]. intros b r.
    unfold show_birthday_func. repeat case_match; intros; by simplify_eq.
  - eapply Hsame; [|eassumption]. intros b r.
    unfold birthdays_func. repeat case_match; intros; by simplify_eq.
Qed.

(** A session whose lines all have a word on them ends by [close] or
    [exit], or by an exception that is the end of the input or the refusal
    to write the file: no validation, lookup or argument error ends it. *)
Lemma main_loop_escapes_only today fs lines book out e :
  Date.valid today = true -> book_ok book ->
  Forall (fun line => Str.split line <> []) lines ->
  main_loop today fs lines book = (out, Crashed e) ->
  e = EOFError \/ e = PermissionError.
Proof.
  intros Ht Hb Hlines. revert book out Hb.
  induction Hlines as [|line lines Hline _ IH]; intros book out Hb; cbn.
  - intros; simplify_eq. by left.
  - destruct (main_step today fs line book) as [o st] eqn:Hstep.
    destruct st as [book' | fs' | e'].
    + destruct (main_loop today fs lines book') as [o' st'] eqn:Hloop.
      intros; simplify_eq. eapply IH; [|exact Hloop].
      by eapply main_step_ok.
    + discriminate.
    + intros; simplify_eq. right.
      apply main_step_escapes_only in Hstep as [Hs | [-> _]];
        [contradiction | reflexivity | exact Ht | by apply book_ok_forallb].
Qed.

End LoopFacts.

(** C2 on the code: the empty line leaves [parse_input] by a [ValueError]
    that no handler sees, and the loop ends there without a word printed
    and without the book saved. *)
Theorem empty_line_escapes `{Builtins} `{Pickle} (today : Date.date)
    (fs : filesystem) (book : AddressBook.t) (rest : list string) :
  parse_input ""
  = Raise (ValueError
             "not enough values to unpack (expected at least 1, got 0)") /\
  main_step today fs "" book
  = ([], Crashed (ValueError
             "not enough values to unpack (expected at least 1, got 0)")) /\
  main_loop today fs ("" :: rest) book
  = ([], Crashed (ValueError
             "not enough values to unpack (expected at least 1, got 0)")).
Proof. repeat split; reflexivity. Qed.

(** A line of blanks does the same. *)
Lemma blank_line_escapes `{Builtins} `{Pickle} today fs book line :
  Str.all char_isspace line = true ->
  main_step today fs line book = ([], Crashed (unpack_error 1 [])).
Proof.
  intros Hb. unfold main_step, parse_input, Str.split.
  by rewrite (split_blank "" line Hb).
Qed.

(** Too few words after a command are reported on a line, and the loop goes
    on; the session of the example ends by the empty line. *)
Example session_with_short_commands :
  @main_loop Sample.builtins Sample.pickle Sample.new_year ∅
    ["add John"; "phone"; "change John 1"; "add John 1234567890"; ""; "exit"]
    []
  = (["not enough values to unpack (expected at least 2, got 1)";
      "Enter user name and phone/birthday";
      "not enough values to unpack (expected at least 3, got 2)";
      "Contact added."],
     Crashed (ValueError
       "not enough values to unpack (expected at least 1, got 0)")).
Proof. reflexivity. Qed.

(* ================================================================== *)
(** * Further properties of the fields and of a record *)

Section MoreFieldFacts.
Context `{Builtins}.

Lemma isdigit_spec value :
  Str.isdigit value = true <->
  value <> "" /\ Str.all char_isdigit value = true.
Proof.
  destruct value as [|a s]; cbn [Str.isdigit].
  - split; [discriminate | intros [Hne _]; by destruct Hne].
  - split; [intros Ha; split; [discriminate | exact Ha] | intros [_ Ha]; exact Ha].
Qed.

Lemma len_ten value :
  Str.len value = 10 <-> String.length value = 10%nat.
Proof. unfold Str.len. lia. Qed.

Lemma date_new_ok y m d :
  Date.valid (Date.mkDate y m d) = true ->
  Date.new y m d = Ok (Date.mkDate y m d).
Proof.
  unfold Date.valid, Date.new. cbn. intros Hv.
  replace ((Date.MINYEAR <=? y) && (y <=? Date.MAXYEAR)) with true by lia.
  replace ((1 <=? m) && (m <=? 12)) with true by lia.
  replace ((1 <=? d) && (d <=? Date.days_in_month y m)) with true by lia.
  reflexivity.
Qed.

Lemma date_new_shape y m d dt :
  Date.new y m d = Ok dt -> dt = Date.mkDate y m d.
Proof. unfold Date.new. repeat case_match; intros; by simplify_eq. Qed.

Lemma date_new_message y m d e :
  Date.new y m d = Raise e -> exists msg, e = ValueError msg.
Proof. unfold Date.new. repeat case_match; intros; simplify_eq; eauto. Qed.

Lemma set_phones_same self :
  Record.set_phones (Record.phones self) self = self.
Proof. by destruct self. Qed.

Lemma find_snoc (l : list Phone.t) phone :
  ~ In phone (map Phone.value l) ->
  find (fun ph => String.eqb (Phone.value ph) phone) (l ++ [Phone.mk phone])
  = Some (Phone.mk phone) /\
  Record.list_remove (Phone.mk phone) (l ++ [Phone.mk phone]) = l.
Proof.
  induction l as [|[v] l IH]; cbn; intros Hno.
  - unfold Phone.eqb; cbn. by rewrite String.eqb_refl.
  - assert (Hne : String.eqb v phone = false).
    { apply not_true_iff_false. rewrite string_eqb_eq. intros ->.
      apply Hno. by left. }
    unfold Phone.eqb; cbn. rewrite Hne.
    destruct IH as [Hf Hr]; [intros Hin; apply Hno; by right|].
    split; [exact Hf|]. unfold Phone.eqb in Hr. cbn in Hr. by rewrite Hr.
Qed.

End MoreFieldFacts.

(** X1: [Phone(value)] succeeds, holding [value], exactly when [value] has
    ten characters and all of them are digits; it fails with "Phone number
    must contain 10 digits" exactly when the length is not ten or some
    character is not a digit. *)
Theorem phone_requires_ten_digits `{Builtins} (value : string) :
  (Phone.init value = Ok (Phone.mk value) <->
   String.length value = 10%nat /\
   forall c, In c (list_ascii_of_string value) -> char_isdigit c = true) /\
  (Phone.init value = Raise (ValueError "Phone number must contain 10 digits")
   <->
   String.length value <> 10%nat \/
   exists c, In c (list_ascii_of_string value) /\ char_isdigit c = false).
Proof.
  rewrite <- all_true, <- all_false, <- len_ten.
  pose proof (isdigit_spec value) as Hd.
  split; split.
  - unfold Phone.init. intros Hi.
    destruct (Str.isdigit value) eqn:E; cbn in Hi; [|discriminate].
    destruct (Str.len value =? 10) eqn:El; cbn in Hi; [|discriminate].
    split; [lia | by apply Hd].
  - intros [Hl Ha]. apply phone_init_valid; [|exact Hl].
    apply Hd. split; [|exact Ha]. intros ->. discriminate.
  - unfold Phone.init. intros Hi.
    destruct (Str.isdigit value) eqn:E; cbn in Hi.
    + destruct (Str.len value =? 10) eqn:El; cbn in Hi; [discriminate|].
      left. lia.
    + destruct (Z.eq_dec (Str.len value) 10) as [Hl|Hl]; [right | by left].
      destruct (Str.all char_isdigit value) eqn:Ea; [|reflexivity].
      assert (false = true); [|discriminate].
      apply Hd. split; [|reflexivity]. intros ->. discriminate.
  - intros Hbad. apply phone_init_invalid.
    destruct Hbad as [Hl | Ha]; [by right | left].
    apply not_true_iff_false. rewrite Hd. intros [_ Ht]. congruence.
Qed.

(** X2: [Birthday(value)] succeeds exactly when the string matches the
    format and its fields form a date the constructor accepts, and then it
    holds that date; every failure, whether of the match or of the date, is
    the one [ValueError] "Invalid date format. Use DD.MM.YYYY". *)
Theorem birthday_date_or_format_error `{Builtins} (value : string) :
  (forall b,
     Birthday.init value = Ok b <->
     exists d m y,
       strptime_fields value = Some (d, m, y) /\
       Date.valid (Date.mkDate y m d) = true /\
       b = Birthday.mk (Date.mkDate y m d)) /\
  (forall e,
     Birthday.init value = Raise e ->
     e = ValueError "Invalid date format. Use DD.MM.YYYY").
Proof.
  unfold Birthday.init, Birthday.strptime. split.
  - intros b. split.
    + destruct (strptime_fields value) as [[[d m] y]|]; [|discriminate].
      destruct (Date.new y m d) as [dt|e] eqn:Hn.
      * intros; simplify_eq. exists d, m, y.
        pose proof (date_new_shape _ _ _ _ Hn) as ->.
        split; [reflexivity|]. split; [|reflexivity].
        by eapply date_new_valid.
      * by destruct e.
    + intros (d & m & y & -> & Hv & ->).
      by rewrite (date_new_ok _ _ _ Hv).
  - intros e. destruct (strptime_fields value) as [[[d m] y]|].
    + destruct (Date.new y m d) as [dt|e'] eqn:Hn; [discriminate|].
      destruct (date_new_message _ _ _ _ Hn) as [msg ->].
      intros; by simplify_eq.
    + intros; by simplify_eq.
Qed.

(** A 31st of February matches the format and is refused as a date. *)
Example birthday_refuses_feb31 :
  @Birthday.init Sample.builtins "31.02.2020"
  = Raise (ValueError "Invalid date format. Use DD.MM.YYYY") /\
  @strptime_fields Sample.builtins "31.02.2020" = Some (31, 2, 2020).
Proof. split; reflexivity. Qed.

(** X3: [add_phone] with ten digits appends the phone at the end, also when
    the record already holds that number (no check for duplicates), and
    changes nothing else; with anything else it raises and leaves the record
    as it was. *)
Theorem add_phone_appends `{Builtins} (self : Record.t) (phone : string) :
  (Str.isdigit phone = true -> Str.len phone = 10 ->
   exists self',
     Record.add_phone phone self = (self', Ok tt) /\
     Record.phone_values self' = Record.phone_values self ++ [phone] /\
     Record.name self' = Record.name self /\
     Record.birthday self' = Record.birthday self) /\
  (Str.isdigit phone = false \/ Str.len phone <> 10 ->
   Record.add_phone phone self
   = (self, Raise (ValueError "Phone number must contain 10 digits"))).
Proof.
  unfold Record.add_phone. split.
  - intros Hd Hl. rewrite (phone_init_valid _ Hd Hl). eexists.
    split; [reflexivity|]. unfold Record.phone_values. cbn.
    by rewrite map_app.
  - intros Hbad. by rewrite (phone_init_invalid _ Hbad).
Qed.

Lemma add_phone_appends_witness :
  (exists self',
     @Record.add_phone Sample.builtins "1234567890" Sample.ann
     = (self', Ok tt) /\
     Record.phone_values self'
     = Record.phone_values Sample.ann ++ ["1234567890"] /\
     Record.name self' = Record.name Sample.ann /\
     Record.birthday self' = Record.birthday Sample.ann) /\
  @Record.add_phone Sample.builtins "12345" Sample.ann
  = (Sample.ann, Raise (ValueError "Phone number must contain 10 digits")).
Proof.
  split.
  - apply (proj1 (@add_phone_appends Sample.builtins Sample.ann "1234567890"));
      reflexivity.
  - apply (proj2 (@add_phone_appends Sample.builtins Sample.ann "12345")).
    right. discriminate.
Defined.

(** The record of the example then holds the number twice. *)
Example add_phone_twice :
  Record.phone_values
    (@Record.add_phone Sample.builtins "1234567890" Sample.ann).1
  = ["1234567890"; "1234567890"].
Proof. reflexivity. Qed.

(** X4: [find_phone] returns the phone with the value asked for when the
    record holds one, and [None] when it holds none; it never raises. *)
Theorem find_phone_by_value (self : Record.t) (phone : string) :
  (In phone (Record.phone_values self) ->
   Record.find_phone phone self = Some (Phone.mk phone)) /\
  (~ In phone (Record.phone_values self) ->
   Record.find_phone phone self = None).
Proof.
  split.
  - intros Hin.
    destruct (first_occurrence _ _ Hin) as (before & after & Heq & Hno).
    by destruct (find_remove_first _ _ _ _ Heq Hno) as [Hf _].
  - apply find_phone_absent.
Qed.

Lemma find_phone_by_value_witness :
  Record.find_phone "1234567890" Sample.ann
  = Some (Phone.mk "1234567890") /\
  Record.find_phone "0000000000" Sample.ann = None.
Proof.
  split.
  - apply (proj1 (find_phone_by_value Sample.ann "1234567890")).
    left. reflexivity.
  - apply (proj2 (find_phone_by_value Sample.ann "0000000000")).
    intros [Heq | []]. discriminate.
Defined.

(** X5: [remove_phone] takes out the first phone with the value and no
    other, so a number held twice is still held once afterwards; when no
    phone has the value it raises "Phone number is not found" and the record
    is unchanged. *)
Theorem remove_phone_first_only (self : Record.t)
    (phone : string) :
  (In phone (Record.phone_values self) ->
   exists before after self',
     Record.phone_values self = before ++ phone :: after /\
     ~ In phone before /\
     Record.remove_phone phone self = (self', Ok tt) /\
     Record.phone_values self' = before ++ after /\
     Record.name self' = Record.name self /\
     Record.birthday self' = Record.birthday self) /\
  (~ In phone (Record.phone_values self) ->
   Record.remove_phone phone self
   = (self, Raise (ValueError "Phone number is not found"))).
Proof.
  unfold Record.remove_phone. split.
  - intros Hin.
    destruct (first_occurrence _ _ Hin) as (before & after & Heq & Hno).
    destruct (find_remove_first _ _ _ _ Heq Hno) as [Hf Hr].
    exists before, after. eexists. split; [exact Heq|]. split; [exact Hno|].
    unfold Record.find_phone. rewrite Hf. split; [reflexivity|].
    split; [exact Hr|]. split; reflexivity.
  - intros Hno. by rewrite (find_phone_absent _ _ Hno).
Qed.

Lemma remove_phone_first_only_witness :
  (exists before after self',
     Record.phone_values
       (Sample.record "John" ["1"; "2"; "1"] None)
     = before ++ "1" :: after /\
     ~ In "1" before /\
     Record.remove_phone "1"
       (Sample.record "John" ["1"; "2"; "1"] None) = (self', Ok tt) /\
     Record.phone_values self' = before ++ after /\
     Record.name self' = Name.mk "John" /\
     Record.birthday self' = None) /\
  Record.remove_phone "3"
    (Sample.record "John" ["1"; "2"; "1"] None)
  = (Sample.record "John" ["1"; "2"; "1"] None,
     Raise (ValueError "Phone number is not found")).
Proof.
  split.
  - apply (proj1 (remove_phone_first_only
             (Sample.record "John" ["1"; "2"; "1"] None) "1")).
    left. reflexivity.
  - apply (proj2 (remove_phone_first_only
             (Sample.record "John" ["1"; "2"; "1"] None) "3")).
    cbn. intros [Heq | [Heq | [Heq | []]]]; discriminate.
Defined.

(** The second of two equal numbers stays. *)
Example remove_phone_keeps_second :
  Record.remove_phone "1"
    (Sample.record "John" ["1"; "2"; "1"] None)
  = (Sample.record "John" ["2"; "1"] None, Ok tt).
Proof. reflexivity. Qed.

(** X6: adding a number the record does not hold and removing it again
    gives back the record as it was. *)
Theorem add_then_remove_phone `{Builtins} (self : Record.t) (phone : string) :
  Str.isdigit phone = true -> Str.len phone = 10 ->
  ~ In phone (Record.phone_values self) ->
  (Record.add_phone phone ;; Record.remove_phone phone) self = (self, Ok tt).
Proof.
  intros Hd Hl Hno. unfold se_bind, Record.add_phone.
  rewrite (phone_init_valid _ Hd Hl).
  unfold Record.remove_phone, Record.find_phone. cbn.
  destruct (find_snoc (Record.phones self) phone Hno) as [Hf Hr].
  rewrite Hf, Hr. cbn. by destruct self.
Qed.

Lemma add_then_remove_phone_witness :
  (@Record.add_phone Sample.builtins "0987654321" ;;
   Record.remove_phone "0987654321") Sample.ann
  = (Sample.ann, Ok tt).
Proof.
  apply (@add_then_remove_phone Sample.builtins Sample.ann "0987654321");
    [reflexivity | reflexivity |].
  intros [Heq | []]. discriminate.
Defined.

(** When the record holds the number already, it is the older one that
    goes, and the order of the phones changes. *)
Example add_then_remove_held :
  (@Record.add_phone Sample.builtins "1111111111" ;;
   Record.remove_phone "1111111111")
    (Sample.record "John" ["1111111111"; "2222222222"] None)
  = (Sample.record "John" ["2222222222"; "1111111111"] None, Ok tt).
Proof. reflexivity. Qed.

(* ================================================================== *)
(** * Further properties of the book *)

Section MoreBookFacts.
Import AddressBook.

Lemma dict_get_none k d : dict_get k d = None <-> ~ In k (map fst d).
Proof.
  induction d as [|[k' v'] d IH]; cbn.
  - split; [intros _ [] | reflexivity].
  - destruct (String.eqb k' k) eqn:E.
    + apply string_eqb_eq in E. split; [discriminate | intros Hno].
      exfalso. apply Hno. by left.
    + rewrite IH. split.
      * intros Hno [Hk | Hin]; [|contradiction].
        subst. rewrite String.eqb_refl in E. discriminate.
      * intros Hno Hin. apply Hno. by right.
Qed.

Lemma dict_get_del_ne k k' d :
  k' <> k -> dict_get k' (dict_del k d) = dict_get k' d.
Proof.
  intros Hne. induction d as [|[k0 v0] d IH]; [reflexivity|]. cbn.
  destruct (String.eqb k0 k) eqn:E; cbn.
  - apply string_eqb_eq in E as ->.
    destruct (String.eqb k k') eqn:E'; [|reflexivity].
    apply string_eqb_eq in E'. congruence.
  - by rewrite IH.
Qed.

Lemma dict_get_del_eq k d :
  distinct (map fst d) = true -> dict_get k (dict_del k d) = None.
Proof.
  induction d as [|[k0 v0] d IH]; [reflexivity|]. cbn [map fst].
  intros [Hno Hd]%distinct_head. cbn.
  destruct (String.eqb k0 k) eqn:E; cbn.
  - apply string_eqb_eq in E as ->. by apply dict_get_none.
  - rewrite E. by apply IH.
Qed.

Lemma dict_del_keys k d x :
  In x (map fst (dict_del k d)) -> In x (map fst d).
Proof.
  induction d as [|[k0 v0] d IH]; [intros []|]. cbn.
  destruct (String.eqb k0 k); cbn; [by right|].
  intros [Hx | Hin]; [by left | right; by apply IH].
Qed.

Lemma dict_del_distinct k d :
  distinct (map fst d) = true -> distinct (map fst (dict_del k d)) = true.
Proof.
  induction d as [|[k0 v0] d IH]; [reflexivity|]. cbn [map fst].
  intros Hd. pose proof Hd as [Hno Hd']%distinct_head. cbn.
  destruct (String.eqb k0 k); [exact Hd'|]. cbn.
  apply andb_true_iff. split; [|by apply IH].
  apply negb_true_iff, not_true_iff_false. rewrite existsb_eqb_in.
  intros Hin. apply Hno. by eapply dict_del_keys.
Qed.

Lemma dict_del_set_new k v d :
  dict_get k d = None -> dict_del k (dict_set k v d) = d.
Proof.
  induction d as [|[k0 v0] d IH]; cbn.
  - by rewrite String.eqb_refl.
  - destruct (String.eqb k0 k) eqn:E; [discriminate|]. cbn. rewrite E.
    intros Hn. by rewrite IH.
Qed.

Lemma dict_set_same k v d : dict_get k d = Some v -> dict_set k v d = d.
Proof.
  induction d as [|[k0 v0] d IH]; [discriminate|]. cbn.
  destruct (String.eqb k0 k) eqn:E.
  - intros; by simplify_eq.
  - intros Hg. by rewrite IH.
Qed.

Lemma dict_set_entries_ok k v d :
  forallb entry_ok d = true -> entry_ok (k, v) = true ->
  forallb entry_ok (dict_set k v d) = true.
Proof.
  intros Hd Hv. induction d as [|[k0 v0] d IH]; cbn.
  - by rewrite Hv.
  - cbn in Hd. apply andb_true_iff in Hd as [H0 Hd].
    destruct (String.eqb k0 k) eqn:E; cbn.
    + apply string_eqb_eq in E as ->. by rewrite Hv, Hd.
    + by rewrite H0, IH.
Qed.

Lemma dict_set_well_formed k v d :
  well_formed d = true -> entry_ok (k, v) = true ->
  well_formed (dict_set k v d) = true.
Proof.
  unfold well_formed. intros [Hd He]%andb_true_iff Hv.
  apply andb_true_iff. split.
  - by apply dict_set_distinct.
  - by apply dict_set_entries_ok.
Qed.

Lemma dict_del_well_formed k d :
  well_formed d = true -> well_formed (dict_del k d) = true.
Proof.
  unfold well_formed. intros [Hd He]%andb_true_iff.
  apply andb_true_iff. split; [by apply dict_del_distinct|].
  clear Hd. induction d as [|[k0 v0] d IH]; [reflexivity|].
  cbn in He |- *. apply andb_true_iff in He as [H0 He].
  destruct (String.eqb k0 k); [exact He|]. cbn. by rewrite H0, IH.
Qed.

Lemma dict_set_length k v d :
  length (dict_set k v d) =
  match dict_get k d with
  | Some _ => length d
  | None => S (length d)
  end.
Proof.
  induction d as [|[k0 v0] d IH]; [reflexivity|]. cbn.
  destruct (String.eqb k0 k); cbn; [reflexivity|].
  rewrite IH. by destruct (dict_get k d).
Qed.

Lemma dict_get_entry k d v :
  well_formed d = true -> dict_get k d = Some v ->
  Name.value (Record.name v) = k /\ birthday_ok v = true.
Proof.
  unfold well_formed. intros [_ He]%andb_true_iff.
  induction d as [|[k0 v0] d IH]; [discriminate|].
  cbn in He |- *. apply andb_true_iff in He as [H0 He].
  destruct (String.eqb k0 k) eqn:E; [|by apply IH].
  intros; simplify_eq. apply string_eqb_eq in E as <-.
  unfold entry_ok in H0. apply andb_true_iff in H0 as [Hk Hb].
  apply string_eqb_eq in Hk. cbn in Hk. auto.
Qed.

(** The names in the list the loop returns follow the records visited. *)
Lemma upcoming_loop_order today records acc res :
  upcoming_loop today records acc = Ok res ->
  exists new,
    res = acc ++ new /\
    sublist (map entry_name new)
      (map (fun r => Name.value (Record.name r)) records).
Proof.
  revert acc. induction records as [|r rest IH]; intros acc; cbn.
  - intros; simplify_eq. exists []. split; [by rewrite app_nil_r | constructor].
  - destruct (loop_body today r) as [l|e] eqn:Hl; [|discriminate].
    intros (new & -> & Hs)%IH. exists (l ++ new).
    split; [by rewrite app_assoc|].
    unfold loop_body in Hl. rewrite map_app.
    repeat case_match; simplify_eq; cbn;
      first [ by apply sublist_cons | by apply sublist_skip ].
Qed.

End MoreBookFacts.

(** X7: [delete_record] on a name the book does not hold raises
    [KeyError] "Contact not found" and leaves the book as it was; on a name
    it holds, the name is gone afterwards and every other name finds what it
    found before. *)
Theorem delete_record_removes (book : AddressBook.t) (name : string) :
  (AddressBook.find_record name book = None ->
   AddressBook.delete_record name book
   = (book, Raise (KeyError "Contact not found"))) /\
  (forall record,
     AddressBook.find_record name book = Some record ->
     AddressBook.distinct (map fst book) = true ->
     exists book',
       AddressBook.delete_record name book = (book', Ok tt) /\
       AddressBook.find_record name book' = None /\
       length book' = pred (length book) /\
       forall other, other <> name ->
         AddressBook.find_record other book'
         = AddressBook.find_record other book).
Proof.
  unfold AddressBook.delete_record, AddressBook.find_record. split.
  - by intros ->.
  - intros record Hg Hd. rewrite Hg. eexists. split; [reflexivity|].
    split; [by apply dict_get_del_eq|]. split.
    + clear Hd. revert Hg. induction book as [|[k v] book IH]; [discriminate|].
      cbn. destruct (String.eqb k name); [reflexivity|].
      intros Hg. cbn. rewrite (IH Hg).
      destruct book; [discriminate | reflexivity].
    + intros other Hne. by apply dict_get_del_ne.
Qed.

Lemma delete_record_removes_witness :
  AddressBook.delete_record "Joe" Sample.book_bob
  = (Sample.book_bob, Raise (KeyError "Contact not found")) /\
  exists book',
    AddressBook.delete_record "Bob" Sample.book_bob = (book', Ok tt) /\
    AddressBook.find_record "Bob" book' = None /\
    length book' = pred (length Sample.book_bob) /\
    forall other, other <> "Bob" ->
      AddressBook.find_record other book'
      = AddressBook.find_record other Sample.book_bob.
Proof.
  split.
  - apply (proj1 (delete_record_removes Sample.book_bob "Joe")). reflexivity.
  - apply (proj2 (delete_record_removes Sample.book_bob "Bob") Sample.bob);
      reflexivity.
Defined.

(** X8: adding a record under a name the book does not hold and deleting
    that name gives back the book as it was. *)
Theorem add_then_delete_record (book : AddressBook.t) (record : Record.t) :
  AddressBook.find_record (Name.value (Record.name record)) book = None ->
  AddressBook.delete_record (Name.value (Record.name record))
    (AddressBook.add_record record book)
  = (book, Ok tt).
Proof.
  intros Hn. unfold AddressBook.delete_record, AddressBook.add_record.
  rewrite dict_get_set_eq. by rewrite (dict_del_set_new _ _ _ Hn).
Qed.

Lemma add_then_delete_record_witness :
  AddressBook.delete_record "Ann"
    (AddressBook.add_record Sample.ann Sample.book_bob)
  = (Sample.book_bob, Ok tt).
Proof.
  apply (add_then_delete_record Sample.book_bob Sample.ann). reflexivity.
Defined.

(** X9: [add_record] keeps a well-formed book well-formed (one record per
    key, each under its own name, every birthday a valid date) when the
    record's birthday is a valid date; the book grows by one entry for a new
    name and keeps its size for a name it holds. *)
Theorem add_record_keeps_well_formed (book : AddressBook.t)
    (record : Record.t) :
  AddressBook.well_formed book = true ->
  AddressBook.birthday_ok record = true ->
  AddressBook.well_formed (AddressBook.add_record record book) = true /\
  length (AddressBook.add_record record book) =
  match AddressBook.find_record (Name.value (Record.name record)) book with
  | Some _ => length book
  | None => S (length book)
  end.
Proof.
  intros Hwf Hb. unfold AddressBook.add_record, AddressBook.find_record.
  split; [|apply dict_set_length].
  apply dict_set_well_formed; [exact Hwf|].
  unfold AddressBook.entry_ok. cbn. by rewrite String.eqb_refl, Hb.
Qed.

Lemma add_record_keeps_well_formed_witness :
  AddressBook.well_formed (AddressBook.add_record Sample.ann Sample.book_bob)
  = true /\
  length (AddressBook.add_record Sample.ann Sample.book_bob) =
  match AddressBook.find_record (Name.value (Record.name Sample.ann))
          Sample.book_bob with
  | Some _ => length Sample.book_bob
  | None => S (length Sample.book_bob)
  end.
Proof.
  apply (add_record_keeps_well_formed Sample.book_bob Sample.ann); reflexivity.
Defined.

(** X10: the entries of [get_upcoming_birthdays] come in the order of the
    book, not in the order of the dates: their names are a subsequence of
    the names of the records as the book holds them, so there is at most one
    entry per record. *)
Theorem upcoming_in_book_order (today : Date.date) (book : AddressBook.t)
    (upcoming : list AddressBook.entry) :
  AddressBook.get_upcoming_birthdays today book = Ok upcoming ->
  sublist (map AddressBook.entry_name upcoming)
    (map (fun r => Name.value (Record.name r)) (AddressBook.values book)) /\
  (length upcoming <= length book)%nat.
Proof.
  unfold AddressBook.get_upcoming_birthdays.
  intros (new & -> & Hs)%upcoming_loop_order. cbn. split; [exact Hs|].
  apply sublist_length in Hs. unfold AddressBook.values in Hs.
  by rewrite !length_map in Hs.
Qed.

Lemma upcoming_in_book_order_witness :
  sublist
    (map AddressBook.entry_name
       [AddressBook.mk_entry "Zed" "31.12.2024";
        AddressBook.mk_entry "Amy" "30.12.2024"])
    (map (fun r => Name.value (Record.name r))
       (AddressBook.values
          (Sample.book_bob ++
           [("Amy", Sample.record "Amy" [] (Some (Date.mkDate 1980 12 30)))])))
  /\
  (length [AddressBook.mk_entry "Zed" "31.12.2024";
           AddressBook.mk_entry "Amy" "30.12.2024"]
   <= length (Sample.book_bob ++
        [("Amy", Sample.record "Amy" [] (Some (Date.mkDate 1980 12 30)))]))%nat.
Proof.
  apply (upcoming_in_book_order Sample.year_end). reflexivity.
Defined.

(** X11: in a well-formed book a record without a birthday has no entry in
    what [get_upcoming_birthdays] returns. *)
Theorem no_birthday_not_listed (today : Date.date) (book : AddressBook.t)
    (upcoming : list AddressBook.entry) (record : Record.t) :
  Date.valid today = true ->
  AddressBook.well_formed book = true ->
  AddressBook.get_upcoming_birthdays today book = Ok upcoming ->
  In record (AddressBook.values book) ->
  Record.birthday record = None ->
  Forall (fun e => AddressBook.entry_name e <> Name.value (Record.name record))
    upcoming.
Proof.
  intros Ht Hwf Hret Hin Hb.
  pose proof (well_formed_birthdays _ Hwf) as Hok.
  pose proof (returns_occurs _ _ _ Ht Hwf Hret) as Hocc.
  destruct (upcoming_loop_spec today _ Ht Hok Hocc) as (new & Hnew & Hmem).
  unfold AddressBook.get_upcoming_birthdays in Hret.
  rewrite Hnew in Hret. cbn in Hret. injection Hret as <-.
  apply List.Forall_forall. intros e (r' & Hr' & He)%Hmem Hname.
  assert (r' = record) as ->.
  { apply (well_formed_unique book); auto.
    unfold AddressBook.loop_body in He.
    repeat case_match; simplify_eq/=; done. }
  unfold AddressBook.loop_body in He. rewrite Hb in He. discriminate.
Qed.

Lemma no_birthday_not_listed_witness :
  Forall (fun e => AddressBook.entry_name e <> "Joe")
    [AddressBook.mk_entry "Ann" "08.01.2024"].
Proof.
  apply (no_birthday_not_listed Sample.new_year
           (Sample.book_ann ++ [("Joe", Sample.record "Joe" ["1"] None)])
           [AddressBook.mk_entry "Ann" "08.01.2024"]
           (Sample.record "Joe" ["1"] None)); try reflexivity.
  right. left. reflexivity.
Defined.

(* ================================================================== *)
(** * Further properties of the command handlers *)

Section HandlerFacts.
Context `{Builtins}.

Lemma len_nonempty phone : Str.len phone = 10 -> nonempty phone = true.
Proof. destruct phone; [discriminate | reflexivity]. Qed.

Lemma record_init_ok name :
  Str.isalpha name = true ->
  Record.init name = Ok (Record.mk (Name.mk name) [] None).
Proof. intros Ha. unfold Record.init, Name.init. by rewrite Ha. Qed.

Lemma record_init_bad name :
  Str.isalpha name = false ->
  Record.init name = Raise (ValueError "Name must contain only letters").
Proof. intros Ha. unfold Record.init, Name.init. by rewrite Ha. Qed.

(** What a handler does that calls a method on the record found under
    [name] and then returns [message]. *)
Lemma on_found_record {A B} name record (m : SE Record.t A) book
    (message : B) :
  (AddressBook.on_record name record m ;; se_ret message) book =
  (AddressBook.dict_set name (m record).1 book,
   match (m record).2 with
   | Ok _ => Ok message
   | Raise e => Raise e
   end).
Proof.
  unfold se_bind, se_ret, AddressBook.on_record.
  by destruct (m record) as [record' [a|e]].
Qed.

End HandlerFacts.

(** X12: [add_contact] with a name of letters that the book does not hold
    and a phone of ten digits returns "Contact added."; the book then holds
    under that name a record with that phone alone and no birthday, and
    every other name finds what it found before.  Words after the phone are
    ignored. *)
Theorem add_contact_new_contact `{Builtins} (book : AddressBook.t)
    (name phone : string) (more : list string) :
  Str.isalpha name = true ->
  Str.isdigit phone = true -> Str.len phone = 10 ->
  AddressBook.find_record name book = None ->
  exists book',
    add_contact (name :: phone :: more) book = (book', Ok "Contact added.") /\
    AddressBook.find_record name book'
    = Some (Record.mk (Name.mk name) [Phone.mk phone] None) /\
    length book' = S (length book) /\
    forall other, other <> name ->
      AddressBook.find_record other book' = AddressBook.find_record other book.
Proof.
  intros Ha Hd Hl Hn. eexists.
  unfold add_contact, input_error, add_contact_func, se_bind at 1.
  unfold find_or_create. rewrite Hn, (record_init_ok _ Ha).
  cbn [fst snd]. rewrite (len_nonempty _ Hl), on_found_record.
  unfold Record.add_phone. rewrite (phone_init_valid _ Hd Hl). cbn.
  split; [reflexivity|]. unfold AddressBook.find_record, AddressBook.add_record.
  split; [apply dict_get_set_eq|]. split.
  - rewrite !dict_set_length, dict_get_set_eq. cbn.
    unfold AddressBook.find_record in Hn. by rewrite Hn.
  - intros other Hne. by rewrite !dict_get_set_ne.
Qed.

Lemma add_contact_new_contact_witness :
  exists book',
    @add_contact Sample.builtins ["John"; "1234567890"] []
    = (book', Ok "Contact added.") /\
    AddressBook.find_record "John" book'
    = Some (Record.mk (Name.mk "John") [Phone.mk "1234567890"] None) /\
    length book' = 1%nat /\
    forall other, other <> "John" ->
      AddressBook.find_record other book' = AddressBook.find_record other [].
Proof.
  apply (@add_contact_new_contact Sample.builtins [] "John" "1234567890" []);
    reflexivity.
Defined.

(** X13: [add_contact] with a name the book holds and a phone of ten digits
    returns "Contact updated." and appends the phone to the record stored
    under that name; the book keeps its size and every other name finds what
    it found before. *)
Theorem add_contact_existing_contact `{Builtins} (book : AddressBook.t)
    (name phone : string) (more : list string) (record : Record.t) :
  AddressBook.find_record name book = Some record ->
  Str.isdigit phone = true -> Str.len phone = 10 ->
  exists book',
    add_contact (name :: phone :: more) book = (book', Ok "Contact updated.") /\
    AddressBook.find_record name book'
    = Some (Record.set_phones (Record.phones record ++ [Phone.mk phone]) record)
    /\
    length book' = length book /\
    forall other, other <> name ->
      AddressBook.find_record other book' = AddressBook.find_record other book.
Proof.
  intros Hg Hd Hl. eexists.
  unfold add_contact, input_error, add_contact_func, se_bind at 1.
  unfold find_or_create. rewrite Hg.
  cbn [fst snd]. rewrite (len_nonempty _ Hl), on_found_record.
  unfold Record.add_phone. rewrite (phone_init_valid _ Hd Hl). cbn.
  split; [reflexivity|]. unfold AddressBook.find_record in *.
  split; [apply dict_get_set_eq|]. split.
  - by rewrite dict_set_length, Hg.
  - intros other Hne. by rewrite dict_get_set_ne.
Qed.

Lemma add_contact_existing_contact_witness :
  exists book',
    @add_contact Sample.builtins ["Ann"; "0987654321"] Sample.book_ann
    = (book', Ok "Contact updated.") /\
    AddressBook.find_record "Ann" book'
    = Some (Record.set_phones
              (Record.phones Sample.ann ++ [Phone.mk "0987654321"]) Sample.ann)
    /\
    length book' = length Sample.book_ann /\
    forall other, other <> "Ann" ->
      AddressBook.find_record other book'
      = AddressBook.find_record other Sample.book_ann.
Proof.
  apply (@add_contact_existing_contact Sample.builtins Sample.book_ann
           "Ann" "0987654321" [] Sample.ann); reflexivity.
Defined.

(** X14: [add_contact] with a new name of letters and a phone that is not
    ten digits reports the phone error, and the contact has been created all
    the same: the book holds under that name a record without phones. *)
Theorem add_contact_bad_phone_creates_contact `{Builtins}
    (book : AddressBook.t) (name phone : string) (more : list string) :
  Str.isalpha name = true ->
  AddressBook.find_record name book = None ->
  nonempty phone = true ->
  Str.isdigit phone = false \/ Str.len phone <> 10 ->
  exists book',
    add_contact (name :: phone :: more) book
    = (book', Ok "Phone number must contain 10 digits") /\
    AddressBook.find_record name book'
    = Some (Record.mk (Name.mk name) [] None) /\
    length book' = S (length book).
Proof.
  intros Ha Hn Hne Hbad. eexists.
  unfold add_contact, input_error, add_contact_func, se_bind at 1.
  unfold find_or_create. rewrite Hn, (record_init_ok _ Ha).
  cbn [fst snd]. rewrite Hne, on_found_record.
  unfold Record.add_phone. rewrite (phone_init_invalid _ Hbad). cbn.
  split; [reflexivity|]. unfold AddressBook.find_record, AddressBook.add_record.
  split; [apply dict_get_set_eq|].
  rewrite !dict_set_length, dict_get_set_eq. cbn.
  unfold AddressBook.find_record in Hn. by rewrite Hn.
Qed.

Lemma add_contact_bad_phone_creates_contact_witness :
  exists book',
    @add_contact Sample.builtins ["John"; "123"] Sample.book_ann
    = (book', Ok "Phone number must contain 10 digits") /\
    AddressBook.find_record "John" book'
    = Some (Record.mk (Name.mk "John") [] None) /\
    length book' = S (length Sample.book_ann).
Proof.
  apply (@add_contact_bad_phone_creates_contact Sample.builtins
           Sample.book_ann "John" "123" []); try reflexivity.
  right. discriminate.
Defined.

(** X15: [add_contact] with a new name that is not made of letters reports
    "Name must contain only letters" and leaves the book as it was, whatever
    the phone. *)
Theorem add_contact_bad_name `{Builtins} (book : AddressBook.t)
    (name phone : string) (more : list string) :
  AddressBook.find_record name book = None ->
  Str.isalpha name = false ->
  add_contact (name :: phone :: more) book
  = (book, Ok "Name must contain only letters").
Proof.
  intros Hn Ha.
  unfold add_contact, input_error, add_contact_func, se_bind.
  unfold find_or_create. by rewrite Hn, (record_init_bad _ Ha).
Qed.

Lemma add_contact_bad_name_witness :
  @add_contact Sample.builtins ["J0hn"; "1234567890"] Sample.book_ann
  = (Sample.book_ann, Ok "Name must contain only letters").
Proof.
  apply (@add_contact_bad_name Sample.builtins Sample.book_ann
           "J0hn" "1234567890" []); reflexivity.
Defined.

(** X16: with too few words after the command the book is left as it was.
    [add], [change] and [add-birthday] answer with the text of the unpacking
    error; [phone] and [show-birthday] answer "Enter user name and
    phone/birthday". *)
Theorem too_few_arguments_reported `{Builtins} (book : AddressBook.t)
    (args : list string) :
  ((length args < 2)%nat ->
   add_contact args book =
   (book, Ok ("not enough values to unpack (expected at least 2, got " +:+
              Date.digit (Z.of_nat (length args)) +:+ ")")) /\
   add_birthday args book =
   (book, Ok ("not enough values to unpack (expected at least 2, got " +:+
              Date.digit (Z.of_nat (length args)) +:+ ")"))) /\
  ((length args < 3)%nat ->
   change_contact args book =
   (book, Ok ("not enough values to unpack (expected at least 3, got " +:+
              Date.digit (Z.of_nat (length args)) +:+ ")"))) /\
  (args = [] ->
   phone_contact args book = (book, Ok "Enter user name and phone/birthday") /\
   show_birthday args book = (book, Ok "Enter user name and phone/birthday")).
Proof.
  split; [|split].
  - intros Hl. destruct args as [|a [|b args]]; [| |cbn in Hl; lia];
      split; reflexivity.
  - intros Hl. destruct args as [|a [|b [|c args]]]; [| | |cbn in Hl; lia];
      reflexivity.
  - intros ->. split; reflexivity.
Qed.

Lemma too_few_arguments_reported_witness :
  @add_contact Sample.builtins ["John"] Sample.book_ann
  = (Sample.book_ann,
     Ok "not enough values to unpack (expected at least 2, got 1)") /\
  @change_contact Sample.builtins ["Ann"; "1234567890"] Sample.book_ann
  = (Sample.book_ann,
     Ok "not enough values to unpack (expected at least 3, got 2)") /\
  phone_contact [] Sample.book_ann
  = (Sample.book_ann, Ok "Enter user name and phone/birthday").
Proof.
  destruct (@too_few_arguments_reported Sample.builtins Sample.book_ann
              ["John"]) as (Hadd & _ & _).
  destruct (@too_few_arguments_reported Sample.builtins Sample.book_ann
              ["Ann"; "1234567890"]) as (_ & Hchange & _).
  destruct (@too_few_arguments_reported Sample.builtins Sample.book_ann
              []) as (_ & _ & Hphone).
  split; [apply Hadd; cbn; lia|].
  split; [apply Hchange; cbn; lia|].
  apply Hphone. reflexivity.
Defined.

Section MoreHandlerFacts.
Context `{Builtins}.

Lemma birthday_init_message value e :
  Birthday.init value = Raise e ->
  e = ValueError "Invalid date format. Use DD.MM.YYYY".
Proof.
  unfold Birthday.init, Birthday.strptime.
  destruct (strptime_fields value) as [[[d m] y]|].
  - destruct (Date.new y m d) as [dt|e'] eqn:Hn; [discriminate|].
    destruct (date_new_message _ _ _ _ Hn) as [msg ->].
    intros; by simplify_eq.
  - intros; by simplify_eq.
Qed.

Lemma all_append p a b :
  Str.all p (a +:+ b) = Str.all p a && Str.all p b.
Proof.
  induction a as [|c a IH]; [reflexivity|].
  change (String c a +:+ b) with (String c (a +:+ b)).
  cbn [Str.all]. by rewrite IH, andb_assoc.
Qed.

(** The words [split] returns are words. *)
Lemma split_from_words word s :
  Str.all (fun c => negb (char_isspace c)) word = true ->
  Forall is_word (Str.split_from word s).
Proof.
  revert word. induction s as [|c s IH]; intros word Hw; cbn.
  - destruct word; constructor; [|constructor]. by split.
  - destruct (char_isspace c) eqn:Hc.
    + destruct word; [by apply IH|].
      constructor; [by split | by apply IH].
    + apply IH. rewrite all_append, Hw. cbn. by rewrite Hc.
Qed.

End MoreHandlerFacts.

(** X17: [change_contact] on a contact that holds [old], with a [new] that
    is not ten digits, reports the phone error and the book has lost the
    number: the record stored under the name is without its first [old] and
    without [new]. *)
Theorem change_contact_loses_phone `{Builtins} (book : AddressBook.t)
    (name old new : string) (more : list string) (record : Record.t) :
  AddressBook.find_record name book = Some record ->
  In old (Record.phone_values record) ->
  Str.isdigit new = false \/ Str.len new <> 10 ->
  exists before after book' record',
    Record.phone_values record = before ++ old :: after /\
    ~ In old before /\
    change_contact (name :: old :: new :: more) book
    = (book', Ok "Phone number must contain 10 digits") /\
    AddressBook.find_record name book' = Some record' /\
    Record.phone_values record' = before ++ after.
Proof.
  intros Hg Hin Hbad.
  destruct (first_occurrence _ _ Hin) as (before & after & Heq & Hno).
  destruct (edit_phone_present record old new _ _ Heq Hno) as [He Hr].
  exists before, after. eexists. eexists.
  split; [exact Heq|]. split; [exact Hno|].
  unfold change_contact, input_error, change_contact_func.
  rewrite Hg, on_found_record, He.
  unfold Record.add_phone. rewrite (phone_init_invalid _ Hbad). cbn.
  split; [reflexivity|]. split; [apply dict_get_set_eq | exact Hr].
Qed.

Lemma change_contact_loses_phone_witness :
  exists before after book' record',
    Record.phone_values Sample.ann = before ++ "1234567890" :: after /\
    ~ In "1234567890" before /\
    @change_contact Sample.builtins ["Ann"; "1234567890"; "123"]
      Sample.book_ann
    = (book', Ok "Phone number must contain 10 digits") /\
    AddressBook.find_record "Ann" book' = Some record' /\
    Record.phone_values record' = before ++ after.
Proof.
  apply (@change_contact_loses_phone Sample.builtins Sample.book_ann
           "Ann" "1234567890" "123" [] Sample.ann).
  - reflexivity.
  - left. reflexivity.
  - right. discriminate.
Defined.

(** The contact of the example is left without any phone. *)
Example change_contact_empties_ann :
  @change_contact Sample.builtins ["Ann"; "1234567890"; "123"] Sample.book_ann
  = ([("Ann", Sample.record "Ann" [] (Some (Date.mkDate 1990 1 6)))],
     Ok "Phone number must contain 10 digits").
Proof. reflexivity. Qed.

(** X18: [change_contact] answers "Contact is not found" for a name the book
    does not hold and "Phone number is not found" for a number the contact
    does not hold, the book being left as it was; for a number the contact
    holds and a [new] of ten digits it answers "Contact updated.", the first
    [old] is gone, [new] is the contact's last phone, and every other name
    finds what it found before. *)
Theorem change_contact_cases `{Builtins} (book : AddressBook.t)
    (name old new : string) (more : list string) :
  (AddressBook.find_record name book = None ->
   change_contact (name :: old :: new :: more) book
   = (book, Ok "Contact is not found")) /\
  (forall record,
     AddressBook.find_record name book = Some record ->
     ~ In old (Record.phone_values record) ->
     change_contact (name :: old :: new :: more) book
     = (book, Ok "Phone number is not found")) /\
  (forall record,
     AddressBook.find_record name book = Some record ->
     In old (Record.phone_values record) ->
     Str.isdigit new = true -> Str.len new = 10 ->
     exists before after book' record',
       Record.phone_values record = before ++ old :: after /\
       ~ In old before /\
       change_contact (name :: old :: new :: more) book
       = (book', Ok "Contact updated.") /\
       AddressBook.find_record name book' = Some record' /\
       Record.phone_values record' = before ++ after ++ [new] /\
       forall other, other <> name ->
         AddressBook.find_record other book'
         = AddressBook.find_record other book).
Proof.
  unfold change_contact, input_error, change_contact_func.
  split; [|split].
  - by intros ->.
  - intros record Hg Hno. rewrite Hg, on_found_record.
    unfold Record.edit_phone. rewrite (find_phone_absent _ _ Hno). cbn.
    unfold AddressBook.find_record in Hg. by rewrite (dict_set_same _ _ _ Hg).
  - intros record Hg Hin Hd Hl.
    destruct (first_occurrence _ _ Hin) as (before & after & Heq & Hno).
    destruct (edit_phone_present record old new _ _ Heq Hno) as [He Hr].
    exists before, after. eexists. eexists.
    split; [exact Heq|]. split; [exact Hno|].
    rewrite Hg, on_found_record, He.
    unfold Record.add_phone. rewrite (phone_init_valid _ Hd Hl). cbn.
    split; [reflexivity|]. split; [apply dict_get_set_eq|]. split.
    + unfold Record.phone_values. cbn. rewrite map_app, Hr. cbn.
      by rewrite <- app_assoc.
    + intros other Hne. by apply dict_get_set_ne.
Qed.

Lemma change_contact_cases_witness :
  @change_contact Sample.builtins ["Joe"; "1"; "2"] Sample.book_ann
  = (Sample.book_ann, Ok "Contact is not found") /\
  @change_contact Sample.builtins ["Ann"; "1"; "2"] Sample.book_ann
  = (Sample.book_ann, Ok "Phone number is not found") /\
  exists before after book' record',
    Record.phone_values Sample.ann = before ++ "1234567890" :: after /\
    ~ In "1234567890" before /\
    @change_contact Sample.builtins ["Ann"; "1234567890"; "0987654321"]
      Sample.book_ann
    = (book', Ok "Contact updated.") /\
    AddressBook.find_record "Ann" book' = Some record' /\
    Record.phone_values record' = before ++ after ++ ["0987654321"] /\
    forall other, other <> "Ann" ->
      AddressBook.find_record other book'
      = AddressBook.find_record other Sample.book_ann.
Proof.
  split; [|split].
  - apply (proj1 (@change_contact_cases Sample.builtins Sample.book_ann
             "Joe" "1" "2" [])). reflexivity.
  - apply (proj1 (proj2 (@change_contact_cases Sample.builtins Sample.book_ann
             "Ann" "1" "2" [])) Sample.ann); [reflexivity|].
    intros [Heq | []]. discriminate.
  - apply (proj2 (proj2 (@change_contact_cases Sample.builtins Sample.book_ann
             "Ann" "1234567890" "0987654321" [])) Sample.ann);
      try reflexivity.
    left. reflexivity.
Defined.

(** X19: [add_birthday] answers "Contact is not found" for a name the book
    does not hold; for a contact and a date that [Birthday] accepts it
    answers "Birthday added." and the contact's birthday is that date,
    whatever it was before, phones and name unchanged; for a date that
    [Birthday] refuses it answers "Invalid date format. Use DD.MM.YYYY" and
    the book, with the birthday the contact had, is left as it was. *)
Theorem add_birthday_sets_or_keeps `{Builtins} (book : AddressBook.t)
    (name birthday : string) (more : list string) :
  (AddressBook.find_record name book = None ->
   add_birthday (name :: birthday :: more) book
   = (book, Ok "Contact is not found")) /\
  (forall record b,
     AddressBook.find_record name book = Some record ->
     Birthday.init birthday = Ok b ->
     exists book',
       add_birthday (name :: birthday :: more) book
       = (book', Ok "Birthday added.") /\
       AddressBook.find_record name book'
       = Some (Record.mk (Record.name record) (Record.phones record) (Some b))
       /\
       forall other, other <> name ->
         AddressBook.find_record other book'
         = AddressBook.find_record other book) /\
  (forall record e,
     AddressBook.find_record name book = Some record ->
     Birthday.init birthday = Raise e ->
     add_birthday (name :: birthday :: more) book
     = (book, Ok "Invalid date format. Use DD.MM.YYYY")).
Proof.
  unfold add_birthday, input_error, add_birthday_func.
  split; [|split].
  - by intros ->.
  - intros record b Hg Hb. eexists. rewrite Hg, on_found_record.
    unfold Record.add_birthday. rewrite Hb. cbn.
    split; [reflexivity|]. split; [apply dict_get_set_eq|].
    intros other Hne. by apply dict_get_set_ne.
  - intros record e Hg Hb. rewrite Hg, on_found_record.
    unfold Record.add_birthday. rewrite Hb. cbn.
    rewrite (birthday_init_message _ _ Hb).
    unfold AddressBook.find_record in Hg. by rewrite (dict_set_same _ _ _ Hg).
Qed.

Lemma add_birthday_sets_or_keeps_witness :
  @add_birthday Sample.builtins ["Joe"; "01.02.2000"] Sample.book_ann
  = (Sample.book_ann, Ok "Contact is not found") /\
  (exists book',
     @add_birthday Sample.builtins ["Ann"; "01.02.2000"] Sample.book_ann
     = (book', Ok "Birthday added.") /\
     AddressBook.find_record "Ann" book'
     = Some (Record.mk (Record.name Sample.ann) (Record.phones Sample.ann)
               (Some (Birthday.mk (Date.mkDate 2000 2 1)))) /\
     forall other, other <> "Ann" ->
       AddressBook.find_record other book'
       = AddressBook.find_record other Sample.book_ann) /\
  @add_birthday Sample.builtins ["Ann"; "2000-02-01"] Sample.book_ann
  = (Sample.book_ann, Ok "Invalid date format. Use DD.MM.YYYY").
Proof.
  split; [|split].
  - apply (proj1 (@add_birthday_sets_or_keeps Sample.builtins Sample.book_ann
             "Joe" "01.02.2000" [])). reflexivity.
  - apply (proj1 (proj2 (@add_birthday_sets_or_keeps Sample.builtins
             Sample.book_ann "Ann" "01.02.2000" [])) Sample.ann); reflexivity.
  - apply (proj2 (proj2 (@add_birthday_sets_or_keeps Sample.builtins
             Sample.book_ann "Ann" "2000-02-01" [])) Sample.ann
             (ValueError "Invalid date format. Use DD.MM.YYYY")); reflexivity.
Defined.

(** X20: [birthdays] on a book of valid records one of which was born on a
    29th of February, in a year that is not a leap year, answers "day is out
    of range for month" in place of the whole list, and the loop goes on with
    the book as it was. *)
Theorem birthdays_reports_feb29 (today : Date.date) (book : AddressBook.t)
    (args : list string) (record : Record.t) (b : Birthday.t) :
  Date.valid today = true ->
  forallb AddressBook.birthday_ok (AddressBook.values book) = true ->
  In record (AddressBook.values book) ->
  Record.birthday record = Some b ->
  Date.is_feb29 (Birthday.value b) = true ->
  Date.is_leap (Date.year today) = false ->
  birthdays today args book = (book, Ok "day is out of range for month").
Proof.
  intros Ht Hok Hin Hb Hf Hl.
  unfold birthdays, input_error, birthdays_func,
    AddressBook.get_upcoming_birthdays.
  rewrite (upcoming_loop_feb29 today (AddressBook.values book) Ht);
    [reflexivity | |].
  - rewrite forallb_forall in Hok. by apply List.Forall_forall.
  - apply List.Exists_exists. exists record. split; [exact Hin|].
    rewrite (occurs_this_year_spec _ _ _ Hb), Hf, Hl. reflexivity.
Qed.

Lemma birthdays_reports_feb29_witness :
  birthdays Sample.common_year [] Sample.book_eve
  = (Sample.book_eve, Ok "day is out of range for month").
Proof.
  apply (birthdays_reports_feb29 Sample.common_year Sample.book_eve []
           Sample.eve (Birthday.mk (Date.mkDate 2000 2 29)));
    try reflexivity.
  right. left. reflexivity.
Defined.

(** Kim's birthday on the 1st of March, four days ahead, is not listed. *)
Example feb29_hides_the_others :
  AddressBook.get_upcoming_birthdays Sample.common_year
    [("Kim", Sample.record "Kim" [] (Some (Date.mkDate 1985 3 1)))]
  = Ok [AddressBook.mk_entry "Kim" "01.03.2023"].
Proof. reflexivity. Qed.

(** X21: the words [parse_input] hands to a handler are not empty and hold
    no whitespace; the command is the first word of the line, stripped and
    lowercased, and the arguments are the words after it, as typed. *)
Theorem arguments_are_words `{Builtins} (user_input command : string)
    (args : list string) :
  parse_input user_input = Ok (command, args) ->
  Forall is_word args /\
  exists first,
    is_word first /\
    Str.split user_input = first :: args /\
    command = Str.lower (Str.strip first).
Proof.
  unfold parse_input. intros Hp.
  pose proof (split_from_words "" user_input eq_refl) as Hw.
  fold (Str.split user_input) in Hw.
  destruct (Str.split user_input) as [|first rest]; [discriminate|].
  simplify_eq. inversion Hw; subst. split; [assumption|]. eauto.
Qed.

Lemma arguments_are_words_witness :
  Forall (@is_word Sample.builtins) ["John"; "1234567890"] /\
  exists first,
    @is_word Sample.builtins first /\
    @Str.split Sample.builtins "  ADD John   1234567890 "
    = first :: ["John"; "1234567890"] /\
    "add" = @Str.lower Sample.builtins (@Str.strip Sample.builtins first).
Proof.
  apply (@arguments_are_words Sample.builtins "  ADD John   1234567890 ").
  reflexivity.
Defined.

(* ================================================================== *)
(** * Further properties of the command loop *)

Section MoreLoopFacts.
Context `{Builtins} `{Pickle}.

Lemma add_phone_name phone self self' r :
  Record.add_phone phone self = (self', r) ->
  Record.name self' = Record.name self.
Proof.
  unfold Record.add_phone. destruct (Phone.init phone); intros; by simplify_eq.
Qed.

Lemma edit_phone_name old new self self' r :
  Record.edit_phone old new self = (self', r) ->
  Record.name self' = Record.name self.
Proof.
  unfold Record.edit_phone, se_bind, Record.remove_phone.
  destruct (Record.find_phone old self); [|intros; by simplify_eq].
  intros Ha. by apply add_phone_name in Ha.
Qed.

Lemma add_birthday_name birthday self self' r :
  Record.add_birthday birthday self = (self', r) ->
  Record.name self' = Record.name self.
Proof.
  unfold Record.add_birthday. destruct (Birthday.init birthday);
    intros; by simplify_eq.
Qed.

(** A method that keeps the name and the validity of the birthday, called
    on the record found under [name], keeps the book well-formed. *)
Lemma on_record_well_formed {A} name record (m : SE Record.t A) book book' r :
  AddressBook.well_formed book = true ->
  AddressBook.find_record name book = Some record ->
  (forall self' r', m record = (self', r') ->
     Record.name self' = Record.name record /\
     AddressBook.birthday_ok self' = true) ->
  AddressBook.on_record name record m book = (book', r) ->
  AddressBook.well_formed book' = true.
Proof.
  unfold AddressBook.on_record, AddressBook.find_record.
  intros Hwf Hg Hm. destruct (m record) as [self' r'] eqn:E.
  intros; simplify_eq. destruct (Hm _ _ eq_refl) as [Hn Hb].
  apply dict_set_well_formed; [exact Hwf|].
  destruct (dict_get_entry _ _ _ Hwf Hg) as [Hk _].
  unfold AddressBook.entry_ok. cbn. rewrite Hn, Hk, Hb.
  by rewrite String.eqb_refl.
Qed.

Lemma find_or_create_well_formed name book book' record message :
  AddressBook.well_formed book = true ->
  find_or_create name book = (book', Ok (record, message)) ->
  AddressBook.well_formed book' = true /\
  AddressBook.find_record name book' = Some record.
Proof.
  unfold find_or_create. intros Hwf.
  destruct (AddressBook.find_record name book) as [r|] eqn:Hg.
  - intros; simplify_eq. auto.
  - unfold Record.init, Name.init.
    destruct (negb (Str.isalpha name)); [discriminate|].
    intros; simplify_eq. unfold AddressBook.add_record. cbn. split.
    + apply dict_set_well_formed; [exact Hwf|].
      unfold AddressBook.entry_ok. cbn. by rewrite String.eqb_refl.
    + apply dict_get_set_eq.
Qed.

Lemma add_contact_well_formed args book book' r :
  AddressBook.well_formed book = true ->
  add_contact_func args book = (book', r) ->
  AddressBook.well_formed book' = true.
Proof.
  intros Hwf. unfold add_contact_func, se_raise.
  destruct args as [|name [|phone args]]; try (intros; by simplify_eq).
  unfold se_bind, se_ret.
  destruct (find_or_create name book) as [b1 [[record message]|e]] eqn:Hf.
  - destruct (find_or_create_well_formed _ _ _ _ _ Hwf Hf) as [Hwf1 Hg1].
    cbn [fst snd]. destruct (nonempty phone); [|intros; by simplify_eq].
    destruct (AddressBook.on_record _ _ _ _) as [b2 r2] eqn:E.
    assert (AddressBook.well_formed b2 = true).
    { eapply on_record_well_formed; [exact Hwf1 | exact Hg1 | | exact E].
      intros self' r' Ha. split; [by eapply add_phone_name|].
      eapply birthday_ok_same; [by eapply add_phone_birthday|].
      unfold AddressBook.find_record in Hg1.
      by destruct (dict_get_entry _ _ _ Hwf1 Hg1). }
    destruct r2 as [[]|]; intros; by simplify_eq.
  - unfold find_or_create in Hf.
    destruct (AddressBook.find_record name book); [discriminate|].
    destruct (Record.init name); intros; by simplify_eq.
Qed.

Lemma change_contact_well_formed args book book' r :
  AddressBook.well_formed book = true ->
  change_contact_func args book = (book', r) ->
  AddressBook.well_formed book' = true.
Proof.
  intros Hwf. unfold change_contact_func.
  destruct args as [|name [|old [|new args]]]; try (intros; by simplify_eq).
  destruct (AddressBook.find_record name book) as [record|] eqn:Hg;
    [|intros; by simplify_eq].
  unfold se_bind, se_ret.
  destruct (AddressBook.on_record _ _ _ _) as [b2 r2] eqn:E.
  assert (AddressBook.well_formed b2 = true).
  { eapply on_record_well_formed; [exact Hwf | exact Hg | | exact E].
    intros self' r' Ha. split; [by eapply edit_phone_name|].
    eapply birthday_ok_same; [by eapply edit_phone_birthday|].
    unfold AddressBook.find_record in Hg.
    by destruct (dict_get_entry _ _ _ Hwf Hg). }
  destruct r2 as [[]|]; intros; by simplify_eq.
Qed.

Lemma add_birthday_well_formed args book book' r :
  AddressBook.well_formed book = true ->
  add_birthday_func args book = (book', r) ->
  AddressBook.well_formed book' = true.
Proof.
  intros Hwf. unfold add_birthday_func.
  destruct args as [|name [|birthday args]]; try (intros; by simplify_eq).
  destruct (AddressBook.find_record name book) as [record|] eqn:Hg;
    [|intros; by simplify_eq].
  unfold se_bind, se_ret.
  destruct (AddressBook.on_record _ _ _ _) as [b2 r2] eqn:E.
  assert (AddressBook.well_formed b2 = true).
  { eapply on_record_well_formed; [exact Hwf | exact Hg | | exact E].
    intros self' r' Ha. split; [by eapply add_birthday_name|].
    eapply add_birthday_ok; [|exact Ha].
    unfold AddressBook.find_record in Hg.
    by destruct (dict_get_entry _ _ _ Hwf Hg). }
  destruct r2 as [[]|]; intros; by simplify_eq.
Qed.

Lemma input_error_state {Args : Type}
    (func : Args -> SE AddressBook.t string) args book book' r :
  input_error func args book = (book', r) ->
  exists r', func args book = (book', r').
Proof.
  unfold input_error. destruct (func args book) as [b [line|e]];
    [intros; simplify_eq; eauto|].
  destruct e; intros; simplify_eq; eauto.
Qed.

Lemma well_formed_book_ok book :
  AddressBook.well_formed book = true -> book_ok book.
Proof. apply well_formed_birthdays. Qed.

End MoreLoopFacts.

(** X22: a turn of the loop keeps the book well-formed: after any line, the
    book still has one record per key, each stored under its own name, and
    every birthday a valid date. *)
Theorem main_step_keeps_well_formed `{Builtins} `{Pickle} (today : Date.date)
    (fs : filesystem) (user_input : string) (book book' : AddressBook.t)
    (out : list string) :
  AddressBook.well_formed book = true ->
  main_step today fs user_input book = (out, Running book') ->
  AddressBook.well_formed book' = true.
Proof.
  intros Hwf Hstep. unfold main_step in Hstep.
  assert (Hsame : forall {Args} (func : Args -> SE AddressBook.t string) a,
    (forall b r, func a book = (b, r) -> b = book) ->
    print_result (input_error func a book) = (out, Running book') ->
    AddressBook.well_formed book' = true).
  { intros Args func a Hf [line Hp]%print_result_running.
    apply input_error_state in Hp as [r' ->%Hf]. exact Hwf. }
  assert (Hpres : forall {Args} (func : Args -> SE AddressBook.t string) a,
    (forall b r, func a book = (b, r) -> AddressBook.well_formed b = true) ->
    print_result (input_error func a book) = (out, Running book') ->
    AddressBook.well_formed book' = true).
  { intros Args func a Hf [line Hp]%print_result_running.
    apply input_error_state in Hp as [r' Hp]. by eapply Hf. }
  repeat case_match; simplify_eq; try exact Hwf.
  - eapply Hpres; [|eassumption]. intros b r. by apply add_contact_well_formed.
  - eapply Hpres; [|eassumption]. intros b r.
    by apply change_contact_well_formed.
  - eapply Hsame; [|eassumption]. intros b r.
    unfold phone_contact_func. repeat case_match; intros; by simplify_eq.
  - eapply Hsame; [|eassumption]. intros b r.
    unfold show_all_contacts_func. repeat case_match; intros; by simplify_eq.
  - eapply Hpres; [|eassumption]. intros b r.
    by apply add_birthday_well_formed.
  - eapply Hsame; [|eassumption]. intros b r.
    unfold show_birthday_func. repeat case_match; intros; by simplify_eq.
  - eapply Hsame; [|eassumption]. intros b r.
    unfold birthdays_func. repeat case_match; intros; by simplify_eq.
Qed.

Lemma main_step_keeps_well_formed_witness :
  @main_step Sample.builtins Sample.pickle Sample.new_year ∅ "add John 123"
    Sample.book_ann
  = (["Phone number must contain 10 digits"],
     Running [("Ann", Sample.ann);
              ("John", Record.mk (Name.mk "John") [] None)]) /\
  AddressBook.well_formed
    [("Ann", Sample.ann); ("John", Record.mk (Name.mk "John") [] None)]
  = true.
Proof.
  split; [reflexivity|].
  apply (@main_step_keeps_well_formed Sample.builtins Sample.pickle
           Sample.new_year ∅ "add John 123" Sample.book_ann
           [("Ann", Sample.ann); ("John", Record.mk (Name.mk "John") [] None)]
           ["Phone number must contain 10 digits"]); reflexivity.
Defined.

(** X23: the commands other than [add], [change] and [add-birthday] never
    change the book: after a line with any other command that does not end
    the loop, the book is the one before it. *)
Theorem queries_leave_book `{Builtins} `{Pickle} (today : Date.date)
    (fs : filesystem) (user_input command : string) (args : list string)
    (book book' : AddressBook.t) (out : list string) :
  parse_input user_input = Ok (command, args) ->
  command <> "add" -> command <> "change" -> command <> "add-birthday" ->
  main_step today fs user_input book = (out, Running book') ->
  book' = book.
Proof.
  intros Hp Hadd Hchange Hbd Hstep. unfold main_step in Hstep.
  rewrite Hp in Hstep.
  assert (Hsame : forall {Args} (func : Args -> SE AddressBook.t string) a,
    (forall b r, func a book = (b, r) -> b = book) ->
    print_result (input_error func a book) = (out, Running book') ->
    book' = book).
  { intros Args func a Hf [line Hq]%print_result_running.
    by apply input_error_state in Hq as [r' ->%Hf]. }
  repeat case_match; simplify_eq; try reflexivity;
    try (match goal with
         | E : String.eqb _ _ = true |- _ =>
             apply string_eqb_eq in E; congruence
         end).
  - eapply Hsame; [|eassumption]. intros b r.
    unfold phone_contact_func. repeat case_match; intros; by simplify_eq.
  - eapply Hsame; [|eassumption]. intros b r.
    unfold show_all_contacts_func. repeat case_match; intros; by simplify_eq.
  - eapply Hsame; [|eassumption]. intros b r.
    unfold show_birthday_func. repeat case_match; intros; by simplify_eq.
  - eapply Hsame; [|eassumption]. intros b r.
    unfold birthdays_func. repeat case_match; intros; by simplify_eq.
Qed.

Lemma queries_leave_book_witness :
  @parse_input Sample.builtins "Birthdays now" = Ok ("birthdays", ["now"]) /\
  exists book',
    @main_step Sample.builtins Sample.pickle Sample.common_year ∅
      "Birthdays now" Sample.book_eve
    = (["day is out of range for month"], Running book') /\
    book' = Sample.book_eve.
Proof.
  split; [reflexivity|]. eexists. split; [reflexivity|].
  apply (@queries_leave_book Sample.builtins Sample.pickle
           Sample.common_year ∅ "Birthdays now" "birthdays" ["now"]
           Sample.book_eve Sample.book_eve
           ["day is out of range for month"]);
    try reflexivity; discriminate.
Defined.

(** X24: [close] and [exit] save the book: when the file can be written and
    pickle restores what it has written, the turn prints "Good bye!" and
    stops, and the next session, started on the files it leaves, begins with
    the same book. *)
Theorem exit_saves_book `{Builtins} `{Pickle} (today : Date.date)
    (fs : filesystem) (user_input command : string) (args : list string)
    (book : AddressBook.t) :
  pickle_faithful ->
  fs !! default_filename <> Some Denied ->
  parse_input user_input = Ok (command, args) ->
  command = "close" \/ command = "exit" ->
  exists fs',
    main_step today fs user_input book = (["Good bye!"], Stopped fs') /\
    load_data default_filename fs' = Ok book /\
    forall today' lines,
      main today' fs' lines =
      ("Welcome to the assistant bot!" :: (main_loop today' fs' lines book).1,
       (main_loop today' fs' lines book).2).
Proof.
  intros Hpf Hok Hp Hcmd.
  assert (Hload : load_data default_filename
            (<[default_filename := Content (pickle_dumps book)]> fs) = Ok book).
  { unfold load_data.
    erewrite read_after_write by (by apply write_file_allowed).
    by rewrite Hpf. }
  eexists. split; [|split; [exact Hload|]].
  - unfold main_step. rewrite Hp.
    replace (String.eqb command "close" || String.eqb command "exit")
      with true by (destruct Hcmd as [-> | ->]; reflexivity).
    unfold save_data. by rewrite (write_file_allowed _ _ _ Hok).
  - intros today' lines. unfold main. rewrite Hload.
    by destruct (main_loop _ _ _ _).
Qed.

Lemma exit_saves_book_witness :
  exists fs',
    @main_step Sample.builtins Sample.pickle Sample.new_year ∅ "EXIT"
      Sample.book_ann = (["Good bye!"], Stopped fs') /\
    @load_data Sample.pickle default_filename fs' = Ok Sample.book_ann /\
    forall today' lines,
      @main Sample.builtins Sample.pickle today' fs' lines =
      ("Welcome to the assistant bot!" ::
         (@main_loop Sample.builtins Sample.pickle today' fs' lines
            Sample.book_ann).1,
       (@main_loop Sample.builtins Sample.pickle today' fs' lines
          Sample.book_ann).2).
Proof.
  apply (@exit_saves_book Sample.builtins Sample.pickle Sample.new_year ∅
           "EXIT" "exit" [] Sample.book_ann sample_pickle_faithful).
  - rewrite lookup_empty. discriminate.
  - reflexivity.
  - right. reflexivity.
Defined.

(** X25: a session whose lines all hold a word is never ended by a
    validation, lookup or argument error: when [main] is left by an
    exception, it is the end of the input, the refusal to write the file on
    [close] or [exit], or the exception [load_data] raised at the start. *)
Theorem session_ends_cleanly `{Builtins} `{Pickle} (today : Date.date)
    (fs : filesystem) (lines out : list string) (e : exn) :
  Date.valid today = true ->
  (forall book, load_data default_filename fs = Ok book ->
     AddressBook.well_formed book = true) ->
  Forall (fun line => Str.split line <> []) lines ->
  main today fs lines = (out, Crashed e) ->
  e = EOFError \/ e = PermissionError \/
  load_data default_filename fs = Raise e.
Proof.
  intros Ht Hload Hlines. unfold main.
  destruct (load_data default_filename fs) as [book|e0] eqn:Hl.
  - destruct (main_loop today fs lines book) as [o st] eqn:Hloop.
    intros; simplify_eq.
    destruct (main_loop_escapes_only today fs lines book o e Ht) as [-> | ->];
      auto.
    apply well_formed_book_ok. by apply Hload.
  - intros; simplify_eq. auto.
Qed.

Lemma session_ends_cleanly_witness :
  @main Sample.builtins Sample.pickle Sample.new_year ∅
    ["add John"; "add John 1234567890"; "add-birthday John 31.02.2000";
     "change John 1 2"; "phone"; "birthdays"; "nonsense"]
  = (["Welcome to the assistant bot!";
      "not enough values to unpack (expected at least 2, got 1)";
      "Contact added."; "Invalid date format. Use DD.MM.YYYY";
      "Phone number is not found"; "Enter user name and phone/birthday";
      "No upcoming birthdays in the next 7 days."; "Invalid command"],
     Crashed EOFError) /\
  (EOFError = EOFError \/ EOFError = PermissionError \/
   @load_data Sample.pickle default_filename ∅ = Raise EOFError).
Proof.
  split; [reflexivity|].
  apply (@session_ends_cleanly Sample.builtins Sample.pickle Sample.new_year ∅
           ["add John"; "add John 1234567890"; "add-birthday John 31.02.2000";
            "change John 1 2"; "phone"; "birthdays"; "nonsense"]
           ["Welcome to the assistant bot!";
            "not enough values to unpack (expected at least 2, got 1)";
            "Contact added."; "Invalid date format. Use DD.MM.YYYY";
            "Phone number is not found"; "Enter user name and phone/birthday";
            "No upcoming birthdays in the next 7 days."; "Invalid command"]).
  - reflexivity.
  - intros book Hb. vm_compute in Hb. by simplify_eq.
  - repeat constructor; discriminate.
  - reflexivity.
Defined.
